(** * GitHub repository analyzer: commit-activity ingestion, statistics, export

    A shallow embedding of [src/main.py]:
    - [GitHubAPI.fetch_commit_activity] (the processing of the two fetched
      JSON bodies, lines 106-140),
    - [DataProcessor.calculate_statistics] (lines 145-165),
    - [DataProcessor.prepare_dataframe_for_export] (lines 167-199),
    followed by the properties the specification states about them.

    Python values are an inductive type, exceptions are an explicit result
    type, [datetime.now()] is a clock read through a call counter.

    Numbers.  Integers are [Z].  The float64 results of numpy are modelled
    by exact rationals plus one [NaN] value: a mean of integers is the exact
    quotient, rounding to two decimals is exact round-half-to-even, and
    [round(np.std(l), 2)] is computed from the exact variance with an integer
    square root.  This idealisation is exact on every concrete input used
    below (all intermediate values there are representable in float64). *)

From Stdlib Require Import ZArith QArith Qround String Ascii Lia Lqa.
From stdpp Require Import base option list strings sorting pretty.

Set Warnings "-register-all".
Local Open Scope string_scope.

(** ** Python values, exceptions, and the operations the code applies *)

Module Py.

(** What [response.json()] can hold.  JSON numbers are integers here (the
    API's totals and counts); a [dict] is an association list read from the
    left, keys being unique in a Python dict. *)
Inductive pyval : Type :=
  | PNone
  | PBool (b : bool)
  | PInt (z : Z)
  | PStr (s : string)
  | PList (l : list pyval)
  | PDict (d : list (string * pyval)).

Inductive py_exn : Type := KeyError | TypeError | ValueError | IndexError.

Inductive result (A : Type) : Type :=
  | OK (a : A)
  | Raise (e : py_exn).
Arguments OK {A} a.
Arguments Raise {A} e.

Definition bind {A B} (r : result A) (k : A → result B) : result B :=
  match r with
  | OK a => k a
  | Raise e => Raise e
  end.

Notation "x <- r ;; k" := (bind r (fun x => k))
  (at level 100, r at next level, right associativity, only parsing).

(** [[f(x) for x in l]]: left to right, the first exception aborts. *)
Fixpoint traverse {A B} (f : A → result B) (l : list A) : result (list B) :=
  match l with
  | [] => OK []
  | x :: l' => y <- f x ;; ys <- traverse f l' ;; OK (y :: ys)
  end.

Fixpoint assoc (k : string) (d : list (string * pyval)) : option pyval :=
  match d with
  | [] => None
  | (k', v) :: d' => if String.eqb k k' then Some v else assoc k d'
  end.

(** [v[k]] for a string key [k]. *)
Definition getitem (v : pyval) (k : string) : result pyval :=
  match v with
  | PDict d => match assoc k d with Some x => OK x | None => Raise KeyError end
  | _ => Raise TypeError
  end.

(** [len(v)]. *)
Definition len (v : pyval) : result nat :=
  match v with
  | PStr s => OK (String.length s)
  | PList l => OK (length l)
  | PDict d => OK (length d)
  | _ => Raise TypeError
  end.

(** The first [n] characters of a string. *)
Definition str_take (n : nat) (s : string) : string := substring 0 n s.

(** [v[:n]].  Slicing a dict raises (TypeError up to CPython 3.11, KeyError
    later); no property below depends on which. *)
Definition slice_to (n : nat) (v : pyval) : result pyval :=
  match v with
  | PStr s => OK (PStr (str_take n s))
  | PList l => OK (PList (take n l))
  | _ => Raise TypeError
  end.

(** [v + s] for a string literal [s]. *)
Definition add_str (v : pyval) (s : string) : result pyval :=
  match v with
  | PStr t => OK (PStr (t ++ s))
  | _ => Raise TypeError
  end.

(** The integer a value stands for in arithmetic; [bool] is a subclass of
    [int] in Python ([True == 1]). *)
Definition as_int (v : pyval) : option Z :=
  match v with
  | PInt z => Some z
  | PBool b => Some (if b then 1 else 0)%Z
  | _ => None
  end.

(** [acc + v] for an integer [acc]. *)
Definition add_int (acc : Z) (v : pyval) : result Z :=
  match as_int v with
  | Some z => OK (acc + z)%Z
  | None => Raise TypeError
  end.

(** [sum(l)]: [0 + l[0] + l[1] + ...]. *)
Fixpoint sum_from (acc : Z) (l : list pyval) : result Z :=
  match l with
  | [] => OK acc
  | v :: l' => acc' <- add_int acc v ;; sum_from acc' l'
  end.

Definition sum (l : list pyval) : result Z := sum_from 0 l.

End Py.

Import Py.

(** ** Response Normalizer: [GitHubAPI.fetch_commit_activity] *)

(** One entry of ['commit_history'].  The three JSON fields are stored as
    they come; only the date has been converted. *)
Record commit_entry (datetime : Type) : Type := {
  date : datetime;
  message : pyval;
  author : pyval;
  sha : pyval
}.
Arguments date {datetime} _.
Arguments message {datetime} _.
Arguments author {datetime} _.
Arguments sha {datetime} _.

(** The dict returned by [fetch_commit_activity]. *)
Record activity (datetime : Type) : Type := {
  weekly_commits : Z;
  activity_by_week : list pyval;
  commit_history : list (commit_entry datetime);
  total_commits : nat
}.
Arguments weekly_commits {datetime} _.
Arguments activity_by_week {datetime} _.
Arguments commit_history {datetime} _.
Arguments total_commits {datetime} _.

(** What [requests.get] hands back: the status code and the JSON array of
    the body. *)
Record response : Type := {
  status_code : Z;
  json : list pyval
}.

Section Normalizer.

(** [datetime] and [datetime.strptime(_, '%Y-%m-%dT%H:%M:%SZ')] belong to
    Python's library: [None] stands for its [ValueError]. *)
Variable datetime : Type.
Variable strptime : string → option datetime.

(** [datetime.strptime(v, fmt)] on an arbitrary value. *)
Definition strptime_val (v : pyval) : result datetime :=
  match v with
  | PStr s => match strptime s with Some t => OK t | None => Raise ValueError end
  | _ => Raise TypeError
  end.

(** The body of the [try] of lines 116-123, for one element of
    [commits_data]. *)
Definition parse_commit (commit : pyval) : result (commit_entry datetime) :=
  c <- getitem commit "commit" ;;
  a <- getitem c "author" ;;
  d <- getitem a "date" ;;
  commit_date <- strptime_val d ;;
  c1 <- getitem commit "commit" ;;
  msg <- getitem c1 "message" ;;
  c2 <- getitem commit "commit" ;;
  a2 <- getitem c2 "author" ;;
  name <- getitem a2 "name" ;;
  full <- getitem commit "sha" ;;
  short <- slice_to 7 full ;;
  OK {| date := commit_date; message := msg; author := name; sha := short |}.

(** The loop of lines 114-125: [append] on success, [continue] on any
    exception (bare [except]). *)
Fixpoint build_commit_history (commits_data : list pyval)
    : list (commit_entry datetime) :=
  match commits_data with
  | [] => []
  | commit :: rest =>
      match parse_commit commit with
      | OK e => e :: build_commit_history rest
      | Raise _ => build_commit_history rest
      end
  end.

(** Lines 107-132, the branch taken when both status codes are 200. *)
Definition process_commit_activity (activity_data commits_data : list pyval)
    : result (activity datetime) :=
  totals <- traverse (fun week => getitem week "total") activity_data ;;
  weekly <- Py.sum totals ;;
  OK {| weekly_commits := weekly;
        activity_by_week := activity_data;
        commit_history := build_commit_history commits_data;
        total_commits := length commits_data |}.

(** [fetch_commit_activity], from the two responses on.  Every path other
    than the successful one reports through [st.error] and returns [None];
    so does the outer [except Exception]. *)
Definition fetch_commit_activity (activity_response commits_response : response)
    : option (activity datetime) :=
  if ((status_code activity_response =? 200)
      && (status_code commits_response =? 200))%Z
  then match process_commit_activity (json activity_response)
                                     (json commits_response) with
       | OK d => Some d
       | Raise _ => None
       end
  else None.

End Normalizer.

(** ** Statistics Engine: [DataProcessor.calculate_statistics] *)

Module Np.

(** A float64 result: an exact rational, or [nan]. *)
Inductive npfloat : Type :=
  | Finite (q : Q)
  | NaN.

Definition Zsum (l : list Z) : Z := foldr Z.add 0%Z l.

Definition Qmean (l : list Z) : Q :=
  (inject_Z (Zsum l) / inject_Z (Z.of_nat (length l)))%Q.

(** [np.mean(l)]; the mean of an empty list is [nan] (numpy only warns). *)
Definition mean (l : list Z) : npfloat :=
  match l with
  | [] => NaN
  | _ => Finite (Qmean l)
  end.

(** [np.median(l)]: the middle of the sorted data, or the mean of the two
    middle elements; [nan] on an empty list. *)
Definition median (l : list Z) : npfloat :=
  match l with
  | [] => NaN
  | _ =>
      let s := merge_sort Z.le l in
      let n := length s in
      if Nat.even n
      then Finite ((inject_Z (nth (n / 2 - 1) s 0%Z)
                    + inject_Z (nth (n / 2) s 0%Z)) / 2)%Q
      else Finite (inject_Z (nth (n / 2) s 0%Z))
  end.

(** The square of [np.std(l)]: the mean of the squared deviations from the
    mean (ddof = 0). *)
Definition Qvar (l : list Z) : Q :=
  let m := Qmean l in
  (foldr Qplus 0 (map (fun x => (inject_Z x - m) * (inject_Z x - m)) l)
   / inject_Z (Z.of_nat (length l)))%Q.

Definition var (l : list Z) : npfloat :=
  match l with
  | [] => NaN
  | _ => Finite (Qvar l)
  end.

(** The integer nearest to [q], a tie going to the even neighbour. *)
Definition round_half_even (q : Q) : Z :=
  let f := Qfloor q in
  match (q - inject_Z f ?= 1 # 2)%Q with
  | Lt => f
  | Gt => (f + 1)%Z
  | Eq => if Z.even f then f else (f + 1)%Z
  end.

(** [round(x, 2)] on a float64. *)
Definition round2 (x : npfloat) : npfloat :=
  match x with
  | Finite q => Finite (inject_Z (round_half_even (q * 100)) / 100)%Q
  | NaN => NaN
  end.

(** The integer nearest to [sqrt w] (half to even), for [0 <= w]:
    [s] below is [floor (2 * sqrt w)]. *)
Definition round_sqrt (w : Q) : Z :=
  let s := Z.sqrt (Qfloor (4 * w)%Q) in
  if Z.even s then (s / 2)%Z
  else if Qeq_bool (4 * w)%Q (inject_Z (s * s))
       then let k := ((s - 1) / 2)%Z in if Z.even k then k else (k + 1)%Z
       else ((s + 1) / 2)%Z.

(** [round(np.sqrt(v), 2)], as [round (100 * sqrt v) / 100]. *)
Definition round2_sqrt (v : npfloat) : npfloat :=
  match v with
  | Finite q => Finite (inject_Z (round_sqrt (10000 * q)) / 100)%Q
  | NaN => NaN
  end.

(** [z > x] for a Python int [z] and a float64 [x]: every comparison with
    [nan] is [False]. *)
Definition int_gt (z : Z) (x : npfloat) : bool :=
  match x with
  | Finite q => negb (Qle_bool (inject_Z z) q)
  | NaN => false
  end.



(** The conversion numpy applies to the list it is given.  A [None] or
    [str] entry makes [np.mean] raise [TypeError]; list and dict entries get
    the same outcome here.  No such entry occurs in what
    [fetch_commit_activity] returns (see [fetch_totals_numeric]). *)
Definition asarray (l : list pyval) : result (list Z) :=
  traverse (fun v => match as_int v with
                     | Some z => OK z
                     | None => Raise TypeError
                     end) l.

End Np.

(** [max(l)] and [min(l)]: [ValueError] on an empty sequence. *)
Definition py_max (l : list Z) : result Z :=
  match l with
  | [] => Raise ValueError
  | x :: l' => OK (foldl Z.max x l')
  end.

Definition py_min (l : list Z) : result Z :=
  match l with
  | [] => Raise ValueError
  | x :: l' => OK (foldl Z.min x l')
  end.

(** [l[-1]]. *)
Definition py_last (l : list Z) : result Z :=
  match last l with
  | Some x => OK x
  | None => Raise IndexError
  end.

(** The [stats] dict, one field per key. *)
Record stats : Type := {
  Total_Commits : nat;
  Average_Weekly_Commits : Np.npfloat;
  Median_Weekly_Commits : Np.npfloat;
  Highest_Weekly_Activity : Z;
  Lowest_Weekly_Activity : Z;
  Standard_Deviation : Np.npfloat;
  Recent_Activity_Trend : string
}.

Section Statistics.

Variable datetime : Type.

(** [[week['total'] for week in weekly_data]], as numbers. *)
Definition weekly_totals_of (activity_data : activity datetime) : result (list Z) :=
  raw <- traverse (fun week => getitem week "total") (activity_by_week activity_data) ;;
  Np.asarray raw.

(** Lines 148-165.  The entries of the dict display are evaluated in order,
    so an empty series gets as far as [max] (the two numpy calls before it
    return [nan]). *)
Definition calculate_statistics (activity_data : activity datetime) : result stats :=
  weekly_totals <- weekly_totals_of activity_data ;;
  let average := Np.round2 (Np.mean weekly_totals) in
  let med := Np.median weekly_totals in
  highest <- py_max weekly_totals ;;
  lowest <- py_min weekly_totals ;;
  let deviation := Np.round2_sqrt (Np.var weekly_totals) in
  let recent_weeks := drop (length weekly_totals - 12) weekly_totals in
  final <- py_last recent_weeks ;;
  let trend :=
    if Np.int_gt final (Np.mean (take (length recent_weeks - 1) recent_weeks))
    then "Increasing" else "Decreasing" in
  OK {| Total_Commits := total_commits activity_data;
        Average_Weekly_Commits := average;
        Median_Weekly_Commits := med;
        Highest_Weekly_Activity := highest;
        Lowest_Weekly_Activity := lowest;
        Standard_Deviation := deviation;
        Recent_Activity_Trend := trend |}.

End Statistics.

(** ** Export Projector: [DataProcessor.prepare_dataframe_for_export] *)

(** One dict appended to [export_data]. *)
Record export_row : Type := {
  Category : string;
  Item : pyval;
  Value : pyval;
  Date : string
}.

Section Projector.

(** Python's library: the [datetime] type, [str(_)], and
    [_.strftime('%Y-%m-%d %H:%M:%S')]. *)
Variable datetime : Type.
Variable py_str : pyval → string.
Variable strftime : datetime → string.

(** The wall clock: [clock k] is what the call number [k] of
    [datetime.now()] returns. *)
Variable clock : nat → datetime.

(** Computations that may raise and that count the clock reads so far. *)
Definition io (A : Type) : Type := nat → result (A * nat).

Definition io_ret {A} (a : A) : io A := fun tick => OK (a, tick).

Definition io_bind {A B} (m : io A) (k : A → io B) : io B :=
  fun tick =>
    match m tick with
    | OK (a, tick') => k a tick'
    | Raise e => Raise e
    end.

Definition lift {A} (r : result A) : io A :=
  fun tick =>
    match r with
    | OK a => OK (a, tick)
    | Raise e => Raise e
    end.

(** [datetime.now()]. *)
Definition now : io datetime := fun tick => OK (clock tick, S tick).

Notation "x <~ m ;; k" := (io_bind m (fun x => k))
  (at level 100, m at next level, right associativity, only parsing).

(** A [for] loop whose body appends one row. *)
Fixpoint for_each {A} (body : A → io export_row) (l : list A) : io (list export_row) :=
  match l with
  | [] => io_ret []
  | x :: l' => r <~ body x ;; rs <~ for_each body l' ;; io_ret (r :: rs)
  end.

(** Lines 173-179. *)
Definition metadata_row (item : string * pyval) : io export_row :=
  t <~ now ;;
  io_ret {| Category := "Metadata";
            Item := PStr (fst item);
            Value := PStr (py_str (snd item));
            Date := strftime t |}.

(** Lines 182-188. *)
Definition contributor_row (contributor : pyval) : io export_row :=
  login <~ lift (getitem contributor "login") ;;
  contributions <~ lift (getitem contributor "contributions") ;;
  t <~ now ;;
  io_ret {| Category := "Contributors";
            Item := login;
            Value := contributions;
            Date := strftime t |}.

(** Line 195: [m[:100] + '...' if len(m) > 100 else m]. *)
Definition export_message (m : pyval) : result pyval :=
  n <- len m ;;
  if (100 <? n)%nat
  then (head <- slice_to 100 m ;; add_str head "...")
  else OK m.

(** Lines 191-197. *)
Definition commit_row (commit : commit_entry datetime) : io export_row :=
  value <~ lift (export_message (message commit)) ;;
  io_ret {| Category := "Commits";
            Item := sha commit;
            Value := value;
            Date := strftime (date commit) |}.

(** The three loops in sequence; [metadata] is the dict in insertion order.
    The rows are what [pd.DataFrame] is built from. *)
Definition export_rows (metadata : list (string * pyval)) (contributors : list pyval)
    (activity_data : activity datetime) : io (list export_row) :=
  ms <~ for_each metadata_row metadata ;;
  cs <~ for_each contributor_row (take 10 contributors) ;;
  hs <~ for_each commit_row (take 20 (commit_history activity_data)) ;;
  io_ret (ms ++ cs ++ hs)%list.

Definition prepare_dataframe_for_export (metadata : list (string * pyval))
    (contributors : list pyval) (activity_data : activity datetime)
    : result (list export_row) :=
  match export_rows metadata contributors activity_data 0 with
  | OK (rows, _) => OK rows
  | Raise e => Raise e
  end.

End Projector.

(** ** A concrete reading of the library functions

    The models above take [strptime], [strftime], [str] and the clock as
    parameters.  For runs on concrete data this module fixes one reading:
    timestamps in the fixed-width form [YYYY-MM-DDTHH:MM:SSZ] with calendar
    checks ([strptime] itself also takes fields without the leading zero),
    and [str] on scalar values. *)

Module Sample.

Record stamp : Type := {
  year : nat; month : nat; day : nat;
  hour : nat; minute : nat; second : nat
}.

Definition digit (c : ascii) : option nat :=
  let n := nat_of_ascii c in
  if (48 <=? n)%nat && (n <=? 57)%nat then Some (n - 48)%nat else None.

Definition number (cs : list ascii) : option nat :=
  foldl (fun acc c => a ← acc; d ← digit c; Some (10 * a + d)%nat) (Some 0%nat) cs.

Definition leap (y : nat) : bool :=
  ((y mod 4 =? 0) && negb (y mod 100 =? 0) || (y mod 400 =? 0))%nat.

Definition days_in_month (y m : nat) : nat :=
  match m with
  | 2 => if leap y then 29 else 28
  | 4 | 6 | 9 | 11 => 30
  | _ => 31
  end%nat.

Definition valid (t : stamp) : bool :=
  ((1 <=? year t) && (1 <=? month t) && (month t <=? 12)
   && (1 <=? day t) && (day t <=? days_in_month (year t) (month t))
   && (hour t <=? 23) && (minute t <=? 59) && (second t <=? 59))%nat.

Definition strptime (s : string) : option stamp :=
  match list_ascii_of_string s with
  | [y1; y2; y3; y4; "-"; m1; m2; "-"; d1; d2; "T";
     h1; h2; ":"; i1; i2; ":"; s1; s2; "Z"]%char =>
      y ← number [y1; y2; y3; y4];
      m ← number [m1; m2];
      d ← number [d1; d2];
      h ← number [h1; h2];
      i ← number [i1; i2];
      sec ← number [s1; s2];
      let t := {| year := y; month := m; day := d;
                  hour := h; minute := i; second := sec |} in
      if valid t then Some t else None
  | _ => None
  end.

Definition digit_char (n : nat) : ascii := ascii_of_nat (48 + n mod 10).

Definition pad2 (n : nat) : string :=
  String (digit_char (n / 10)) (String (digit_char n) "").

Definition pad4 (n : nat) : string := pad2 (n / 100) ++ pad2 (n mod 100).

(** [t.strftime('%Y-%m-%d %H:%M:%S')]. *)
Definition strftime (t : stamp) : string :=
  pad4 (year t) ++ "-" ++ pad2 (month t) ++ "-" ++ pad2 (day t) ++ " "
  ++ pad2 (hour t) ++ ":" ++ pad2 (minute t) ++ ":" ++ pad2 (second t).

(** [str(v)] on scalars; containers are not rendered. *)
Definition str (v : pyval) : string :=
  match v with
  | PNone => "None"
  | PBool b => if b then "True" else "False"
  | PInt z => pretty z
  | PStr s => s
  | PList _ => "[...]"
  | PDict _ => "{...}"
  end.

(** A clock that advances one second per reading, from noon. *)
Definition ticking (k : nat) : stamp :=
  {| year := 2024; month := 5; day := 17;
     hour := 12; minute := 0; second := k mod 60 |}.

(** A clock that stands still during the call. *)
Definition frozen (k : nat) : stamp := ticking 0.

(** A raw commit record as the commits endpoint lists them. *)
Definition raw_commit (full_sha name when msg : string) : pyval :=
  PDict [("sha", PStr full_sha);
         ("commit", PDict [("author", PDict [("name", PStr name);
                                            ("date", PStr when)]);
                           ("message", PStr msg)])].

(** A weekly record of the commit-activity endpoint. *)
Definition raw_week (start total : Z) : pyval :=
  PDict [("days", PList []); ("total", PInt total); ("week", PInt start)].

Definition raw_contributor (login : string) (n : Z) : pyval :=
  PDict [("login", PStr login); ("contributions", PInt n); ("type", PStr "User")].

(** A dataset holding the given weekly totals and nothing else. *)
Definition of_totals (totals : list Z) (n : nat) : activity stamp :=
  {| weekly_commits := Np.Zsum totals;
     activity_by_week := map (raw_week 0) totals;
     commit_history := [];
     total_commits := n |}.

(** A text of [n] characters. *)
Fixpoint text (n : nat) : string :=
  match n with
  | O => ""
  | S n' => String "x" (text n')
  end.

(** A stored commit entry with the given message. *)
Definition entry (msg : string) : commit_entry stamp :=
  {| date := {| year := 2024; month := 5; day := 15;
                hour := 7; minute := 0; second := 1 |};
     message := PStr msg;
     author := PStr "eve";
     sha := PStr "5d4a7e3" |}.

(** A dataset holding the given commit entries and one weekly record. *)
Definition of_history (entries : list (commit_entry stamp)) : activity stamp :=
  {| weekly_commits := 4;
     activity_by_week := [raw_week 1715472000 4];
     commit_history := entries;
     total_commits := length entries |}.

Definition many_contributors (n : nat) : list pyval :=
  map (fun i => raw_contributor (pretty i) (Z.of_nat (n - i))) (seq 0 n).

Definition many_entries (n : nat) : list (commit_entry stamp) :=
  map (fun i => entry (pretty i)) (seq 0 n).

(** Three fields of the metadata dict. *)
Definition metadata : list (string * pyval) :=
  [("name", PStr "demo"); ("stars", PInt 12); ("language", PNone)].

(** Five raw commit records, the second and the fourth with a timestamp
    that does not parse. *)
Definition five_commits : list pyval :=
  [ raw_commit "1f0c3a9e5d7b2c4e6f8091a2b3c4d5e6f7a8b9c0" "ada"
               "2024-05-17T09:30:00Z" "Add parser";
    raw_commit "2a1d4b0f6e8c3d5f7a9012b3c4d5e6f7a8b9c0d1" "bob"
               "17 May 2024" "Fix typo";
    raw_commit "3b2e5c1a7f9d4e6a8b0123c4d5e6f7a8b9c0d1e2" "cy"
               "2024-05-16T18:05:42Z" "Refactor";
    raw_commit "4c3f6d2b8a0e5f7b9c1234d5e6f7a8b9c0d1e2f3" "dee"
               "2024-13-40T00:00:00Z" "Bump";
    raw_commit "5d4a7e3c9b1f6a8c0d2345e6f7a8b9c0d1e2f3a4" "eve"
               "2024-05-15T07:00:01Z" "Init" ].

(** The dataset [fetch_commit_activity] builds from them. *)
Definition fetched : activity stamp :=
  of_history (build_commit_history stamp strptime five_commits).

End Sample.

(** ** Reading the raw records

    The field of a JSON object, [None] when the value is no object or lacks
    the key; the statements below describe raw records with it. *)

Definition field (k : string) (v : pyval) : option pyval :=
  match v with
  | PDict d => assoc k d
  | _ => None
  end.

(** The value reached through nested objects. *)
Fixpoint at_path (path : list string) (v : pyval) : option pyval :=
  match path with
  | [] => Some v
  | k :: path' =>
      match field k v with
      | Some x => at_path path' x
      | None => None
      end
  end.


(** The weekly record carries an integer total. *)
Definition week_total (week : pyval) : option Z :=
  match field "total" week with
  | Some v => as_int v
  | None => None
  end.

Section RawCommits.

Variable datetime : Type.
Variable strptime : string → option datetime.

(** The author timestamp of a raw commit record, parsed; [None] when it is
    absent, is no string, or does not parse. *)
Definition timestamp_of (commit : pyval) : option datetime :=
  match at_path ["commit"; "author"; "date"] commit with
  | Some (PStr s) => strptime s
  | _ => None
  end.

(** The record exposes an author name, a message and a full SHA. *)
Definition exposes (commit : pyval) (name msg : pyval) (full : string) : Prop :=
  at_path ["commit"; "author"; "name"] commit = Some name
  ∧ at_path ["commit"; "message"] commit = Some msg
  ∧ at_path ["sha"] commit = Some (PStr full).

(** The stored entry [e] is the raw record [commit], converted. *)
Definition converted (commit : pyval) (e : commit_entry datetime) : Prop :=
  timestamp_of commit = Some (date e)
  ∧ ∃ full, exposes commit (author e) (message e) full
            ∧ sha e = PStr (str_take 7 full).

End RawCommits.

Section ExportRows.

Variable datetime : Type.
Variable py_str : pyval → string.
Variable strftime : datetime → string.
Variable clock : nat → datetime.

(** What a row of each section looks like, [tick] being the number of clock
    reads made before the row is built. *)
Definition is_metadata_row (tick : nat) (item : string * pyval) (r : export_row) : Prop :=
  r = {| Category := "Metadata"; Item := PStr (fst item);
         Value := PStr (py_str (snd item)); Date := strftime (clock tick) |}.

Definition is_contributor_row (tick : nat) (c : pyval) (r : export_row) : Prop :=
  Category r = "Contributors"
  ∧ field "login" c = Some (Item r)
  ∧ field "contributions" c = Some (Value r)
  ∧ Date r = strftime (clock tick).

Definition is_commit_row (tick : nat) (c : commit_entry datetime) (r : export_row) : Prop :=
  Category r = "Commits"
  ∧ Item r = sha c
  ∧ export_message (message c) = OK (Value r)
  ∧ Date r = strftime (date c).

End ExportRows.

(** [activity_data] with another ['weekly_commits']. *)
Definition with_weekly_commits {datetime} (w : Z) (d : activity datetime)
    : activity datetime :=
  {| weekly_commits := w;
     activity_by_week := activity_by_week d;
     commit_history := commit_history d;
     total_commits := total_commits d |}.

(** ** The rest of [GitHubAPI]: URL parsing and the requests

    [requests.get] is the environment: it is a parameter that answers a URL
    given the URLs requested before it, or raises.  The functions below
    carry the log of requested URLs along.  Strings are sequences of
    [ascii] characters; "/" being one byte in UTF-8, cutting at "/" is the
    same on bytes and on code points. *)

Module Str.

(** [s.rstrip(c)] for a one-character [c]. *)
Fixpoint rstrip (c : ascii) (s : string) : string :=
  match s with
  | EmptyString => EmptyString
  | String a s' =>
      match rstrip c s' with
      | EmptyString => if Ascii.eqb a c then EmptyString else String a EmptyString
      | t => String a t
      end
  end.

(** [s.split(c)] for a one-character [c]: one more part than there are
    occurrences of [c], empty parts included. *)
Fixpoint split (c : ascii) (s : string) : list string :=
  match s with
  | EmptyString => [EmptyString]
  | String a s' =>
      if Ascii.eqb a c then EmptyString :: split c s'
      else match split c s' with
           | p :: ps => String a p :: ps
           | [] => [String a EmptyString]
           end
  end.

(** [c * k]. *)
Fixpoint rep (c : ascii) (k : nat) : string :=
  match k with
  | O => EmptyString
  | S k' => String c (rep c k')
  end.

(** [c in s]. *)
Fixpoint has (c : ascii) (s : string) : bool :=
  match s with
  | EmptyString => false
  | String a s' => Ascii.eqb a c || has c s'
  end.

End Str.

Module Builtins.

(** [l[-k]] for [1 <= k]; [None] stands for [IndexError]. *)
Definition neg_index {A} (l : list A) (k : nat) : option A :=
  if (k <=? length l)%nat then l !! (length l - k)%nat else None.

(** [bool(v)]. *)
Definition truthy (v : pyval) : bool :=
  match v with
  | PNone => false
  | PBool b => b
  | PInt z => negb (z =? 0)%Z
  | PStr s => negb (String.eqb s "")
  | PList l => match l with [] => false | _ => true end
  | PDict d => match d with [] => false | _ => true end
  end.

(** [v.get(k, default)]; [None] stands for the [AttributeError] of a value
    that is no dict. *)
Definition dict_get (v : pyval) (k : string) (default : pyval) : option pyval :=
  match v with
  | PDict d => Some (match assoc k d with Some x => x | None => default end)
  | _ => None
  end.

(** What [for x in v] goes through; [None] stands for the [TypeError] of a
    value that cannot be iterated.  A dict yields its keys. *)
Definition iter (v : pyval) : option (list pyval) :=
  match v with
  | PList l => Some l
  | PDict d => Some (map (fun kv => PStr (fst kv)) d)
  | PStr s => Some (map (fun a => PStr (String a EmptyString)) (list_ascii_of_string s))
  | _ => None
  end.

End Builtins.

Import Builtins.

(** What [requests.get] returns: the status code and the decoded JSON
    body (a body that does not decode is left out: it ends in the same
    [except] as a failing request). *)
Record http_response : Type := {
  status : Z;
  body : pyval
}.

(** A computation that makes requests: from the log of URLs requested so
    far to a result and the extended log. *)
Definition net (A : Type) : Type := list string → A * list string.

Module GitHubAPI.

Definition GITHUB_API_BASE : string := "https://api.github.com".

(** Lines 18-27.  [None] is the pair [(None, None)] of the [except]
    branch, reached when there are fewer than two parts. *)
Definition parse_repo_url (repo_url : string) : option (string * string) :=
  let parts := Str.split "/" (Str.rstrip "/" repo_url) in
  match neg_index parts 2 with
  | Some owner =>
      match neg_index parts 1 with
      | Some repo => Some (owner, repo)
      | None => None
      end
  | None => None
  end.

(** The dict of lines 41-55, for the decoded body [data]. *)
Definition metadata_of (data : pyval) : option (list (string * pyval)) :=
  name ← dict_get data "name" PNone;
  description ← dict_get data "description" PNone;
  stars ← dict_get data "stargazers_count" PNone;
  forks ← dict_get data "forks_count" PNone;
  open_issues ← dict_get data "open_issues_count" PNone;
  created_at ← dict_get data "created_at" PNone;
  updated_at ← dict_get data "updated_at" PNone;
  language ← dict_get data "language" PNone;
  size ← dict_get data "size" PNone;
  watchers ← dict_get data "watchers_count" PNone;
  default_branch ← dict_get data "default_branch" PNone;
  has_license ← dict_get data "license" PNone;
  license ← (if truthy has_license
             then lic ← dict_get data "license" (PDict []); dict_get lic "name" PNone
             else Some (PStr "No License"));
  topics ← dict_get data "topics" (PList []);
  Some [("name", name); ("description", description); ("stars", stars);
        ("forks", forks); ("open_issues", open_issues);
        ("created_at", created_at); ("updated_at", updated_at);
        ("language", language); ("size", size); ("watchers", watchers);
        ("default_branch", default_branch); ("license", license);
        ("topics", topics)].

(** The keys of that dict, in insertion order. *)
Definition metadata_keys : list string :=
  ["name"; "description"; "stars"; "forks"; "open_issues"; "created_at";
   "updated_at"; "language"; "size"; "watchers"; "default_branch"; "license";
   "topics"].

Section Requests.

Variable datetime : Type.
Variable strptime : string → option datetime.

(** [requests_get log url]: the answer to [url] after the requests of
    [log]; [None] when [requests.get] raises. *)
Variable requests_get : list string → string → option http_response.

Definition get (url : string) : net (option http_response) :=
  fun log => (requests_get log url, (log ++ [url])%list).

(** Lines 29-65.  Every path but the successful one returns [None]. *)
Definition fetch_repo_metadata (repo_url : string)
    : net (option (list (string * pyval))) :=
  fun log =>
    match parse_repo_url repo_url with
    | Some (owner, repo) =>
        if String.eqb owner "" || String.eqb repo "" then (None, log)
        else
          match get (GITHUB_API_BASE ++ "/repos/" ++ owner ++ "/" ++ repo) log with
          | (Some response, log') =>
              if (status response =? 200)%Z
              then (metadata_of (body response), log')
              else (None, log')
          | (None, log') => (None, log')
          end
    | None => (None, log)
    end.

(** Lines 67-89. *)
Definition fetch_contributors (repo_url : string) : net (option pyval) :=
  fun log =>
    match parse_repo_url repo_url with
    | Some (owner, repo) =>
        if String.eqb owner "" || String.eqb repo "" then (None, log)
        else
          match get (GITHUB_API_BASE ++ "/repos/" ++ owner ++ "/" ++ repo
                     ++ "/contributors") log with
          | (Some response, log') =>
              if (status response =? 200)%Z
              then (Some (body response), log')
              else (None, log')
          | (None, log') => (None, log')
          end
    | None => (None, log)
    end.

(** Lines 91-140: both requests are made before either status is looked
    at.  The bodies are handed on as the elements a [for] loop goes
    through; a body that cannot be iterated ends in the outer [except]. *)
Definition fetch_commit_activity (repo_url : string)
    : net (option (activity datetime)) :=
  fun log =>
    match parse_repo_url repo_url with
    | Some (owner, repo) =>
        if String.eqb owner "" || String.eqb repo "" then (None, log)
        else
          match get (GITHUB_API_BASE ++ "/repos/" ++ owner ++ "/" ++ repo
                     ++ "/stats/commit_activity") log with
          | (Some activity_response, log1) =>
              match get (GITHUB_API_BASE ++ "/repos/" ++ owner ++ "/" ++ repo
                         ++ "/commits") log1 with
              | (Some commits_response, log2) =>
                  (match iter (body activity_response),
                         iter (body commits_response) with
                   | Some activity_data, Some commits_data =>
                       fetch_commit_activity datetime strptime
                         {| status_code := status activity_response;
                            json := activity_data |}
                         {| status_code := status commits_response;
                            json := commits_data |}
                   | _, _ => None
                   end, log2)
              | (None, log2) => (None, log2)
              end
          | (None, log1) => (None, log1)
          end
    | None => (None, log)
    end.

End Requests.

End GitHubAPI.

(** ** [Visualizer.create_recent_activity_trend]: the two series given to
    [px.line] (lines 246-250) *)

Section Visualizer.

Variable datetime : Type.

Definition recent_activity_trend_series (activity_data : activity datetime)
    : result (list nat * list pyval) :=
  let weekly_data := activity_by_week activity_data in
  recent_commits <- traverse (fun week => getitem week "total")
                             (drop (length weekly_data - 12) weekly_data) ;;
  let weeks := seq 1 12 in
  OK (weeks, recent_commits).

End Visualizer.

(** ** [GitHubRepoAnalyzer.analyze_repository] (lines 266-308) *)

(** The dict kept in [self.analysis_results]. *)
Record analysis (datetime : Type) : Type := {
  res_metadata : list (string * pyval);
  res_contributors : pyval;
  res_commit_activity : activity datetime;
  res_statistics : stats
}.
Arguments res_metadata {datetime} _.
Arguments res_contributors {datetime} _.
Arguments res_commit_activity {datetime} _.
Arguments res_statistics {datetime} _.

Section Analyzer.

Variable datetime : Type.
Variable strptime : string → option datetime.
Variable requests_get : list string → string → option http_response.

(** The progress bar and the status text are left out; [None] for
    [analysis_results] is the empty dict of [__init__].  The outcome is
    the returned boolean, or the exception [calculate_statistics] lets
    through, together with [analysis_results] after the call. *)
Definition analyze_repository (repo_url : string)
    (analysis_results : option (analysis datetime))
    : net (result bool * option (analysis datetime)) :=
  fun log =>
    if String.eqb repo_url "" then ((OK false, analysis_results), log)
    else
      match GitHubAPI.fetch_repo_metadata requests_get repo_url log with
      | (Some ((_ :: _) as metadata), log1) =>
          match GitHubAPI.fetch_contributors requests_get repo_url log1 with
          | (Some contributors, log2) =>
              if truthy contributors
              then
                match GitHubAPI.fetch_commit_activity datetime strptime
                        requests_get repo_url log2 with
                | (Some commit_activity, log3) =>
                    match calculate_statistics datetime commit_activity with
                    | OK statistics =>
                        ((OK true,
                          Some {| res_metadata := metadata;
                                  res_contributors := contributors;
                                  res_commit_activity := commit_activity;
                                  res_statistics := statistics |}), log3)
                    | Raise e => ((Raise e, analysis_results), log3)
                    end
                | (None, log3) => ((OK false, analysis_results), log3)
                end
              else ((OK false, analysis_results), log2)
          | (None, log2) => ((OK false, analysis_results), log2)
          end
      | (_, log1) => ((OK false, analysis_results), log1)
      end.

End Analyzer.

(** The API address of a repository, as the three fetches build it. *)
Definition repos_url (owner repo : string) : string :=
  GitHubAPI.GITHUB_API_BASE ++ "/repos/" ++ owner ++ "/" ++ repo.

(** A server for runs on concrete data: it knows one repository and answers
    every other address with 404. *)
Module SampleRepo.

Definition url : string := "https://github.com/microsoft/vscode/".

Definition api : string := "https://api.github.com/repos/microsoft/vscode".

Definition repo_body : pyval :=
  PDict [("name", PStr "vscode");
         ("stargazers_count", PInt 170000);
         ("license", PDict [("key", PStr "mit"); ("name", PStr "MIT License")]);
         ("topics", PList [PStr "editor"])].

Definition server (contributors activity : pyval)
    (log : list string) (address : string) : option http_response :=
  if String.eqb address api
  then Some {| status := 200; body := repo_body |}
  else if String.eqb address (api ++ "/contributors")
  then Some {| status := 200; body := contributors |}
  else if String.eqb address (api ++ "/stats/commit_activity")
  then Some {| status := 200; body := activity |}
  else if String.eqb address (api ++ "/commits")
  then Some {| status := 200; body := PList Sample.five_commits |}
  else Some {| status := 404; body := PDict [("message", PStr "Not Found")] |}.

Definition contributors : pyval := PList (Sample.many_contributors 3).

Definition weeks : pyval := PList [Sample.raw_week 0 3; Sample.raw_week 604800 5].

End SampleRepo.

(** * Properties *)

(** ** Python operations *)

Lemma getitem_field v k x : field k v = Some x → getitem v k = OK x.
Proof. destruct v; simpl; try discriminate. by intros ->. Qed.

Lemma getitem_OK_field v k x : getitem v k = OK x → field k v = Some x.
Proof.
  destruct v; simpl; try discriminate.
  destruct (assoc k d); [by intros [= ->] | discriminate].
Qed.

Lemma bind_OK {A B} (r : result A) (k : A → result B) b :
  bind r k = OK b → ∃ a, r = OK a ∧ k a = OK b.
Proof. destruct r; simpl; [eauto | discriminate]. Qed.

Lemma traverse_OK_Forall2 {A B} (f : A → result B) l ys :
  traverse f l = OK ys → Forall2 (fun x y => f x = OK y) l ys.
Proof.
  revert ys. induction l as [|x l IH]; simpl; intros ys H.
  - injection H as <-. constructor.
  - apply bind_OK in H as (y & Hy & H). apply bind_OK in H as (ys' & Hys & H).
    injection H as <-. constructor; auto.
Qed.


Lemma sum_from_OK l : ∀ acc z,
  sum_from acc l = OK z →
  ∃ zs, Forall2 (fun v x => as_int v = Some x) l zs ∧ z = (acc + Np.Zsum zs)%Z.
Proof.
  induction l as [|v l IH]; simpl; intros acc z H.
  - injection H as <-. exists []. split; [constructor | simpl; lia].
  - unfold add_int in H. destruct (as_int v) as [x|] eqn:Hv; [|discriminate].
    simpl in H. apply IH in H as (zs & Hzs & ->).
    exists (x :: zs). split; [by constructor | simpl; lia].
Qed.

(** ** Response Normalizer *)

Section NormalizerFacts.

Variable datetime : Type.
Variable strptime : string → option datetime.

Local Abbreviation parse_commit := (parse_commit datetime strptime).
Local Abbreviation build_commit_history := (build_commit_history datetime strptime).
Local Abbreviation process_commit_activity := (process_commit_activity datetime strptime).
Local Abbreviation fetch_commit_activity := (fetch_commit_activity datetime strptime).
Local Abbreviation timestamp_of := (timestamp_of datetime strptime).
Local Abbreviation converted := (converted datetime strptime).

Lemma getitem_cases v k :
  getitem v k = match field k v with
                | Some x => OK x
                | None => Raise (match v with PDict _ => KeyError | _ => TypeError end)
                end.
Proof. by destruct v. Qed.

Lemma parse_commit_skip commit :
  timestamp_of commit = None → ∃ e, parse_commit commit = Raise e.
Proof.
  unfold timestamp_of, parse_commit. simpl.
  rewrite (getitem_cases commit "commit").
  destruct (field "commit" commit) as [c|]; simpl; [|eauto].
  rewrite (getitem_cases c "author").
  destruct (field "author" c) as [a|]; simpl; [|eauto].
  rewrite (getitem_cases a "date").
  destruct (field "date" a) as [w|]; simpl; [|eauto].
  destruct w; simpl; eauto.
  intros ->. simpl. eauto.
Qed.

Lemma parse_commit_keep commit t name msg full :
  timestamp_of commit = Some t →
  exposes commit name msg full →
  parse_commit commit
  = OK {| date := t; message := msg; author := name; sha := PStr (str_take 7 full) |}.
Proof.
  unfold timestamp_of, exposes. simpl. intros Ht (Hname & Hmsg & Hsha).
  destruct (field "commit" commit) as [c|] eqn:Hc; [|done].
  destruct (field "author" c) as [a|] eqn:Ha; [|done].
  destruct (field "date" a) as [[| | |s| |]|] eqn:Hd; try done.
  destruct (field "name" a) as [n|] eqn:Hn; [injection Hname as ->|done].
  destruct (field "message" c) as [m|] eqn:Hm; [injection Hmsg as ->|done].
  destruct (field "sha" commit) as [h|] eqn:Hh; [injection Hsha as ->|done].
  unfold parse_commit.
  rewrite !getitem_cases, Hc, Hh. simpl.
  rewrite !getitem_cases, Ha, Hm. simpl.
  rewrite !getitem_cases, Hd, Hn. simpl. by rewrite Ht.
Qed.

Lemma build_commit_history_filter commits_data :
  Forall (fun c => ∃ name msg full, exposes c name msg full) commits_data →
  Forall2 converted
          (filter (fun c => is_Some (timestamp_of c)) commits_data)
          (build_commit_history commits_data).
Proof.
  induction 1 as [|c l (name & msg & full & Hc) _ IH]; simpl; [constructor|].
  destruct (timestamp_of c) as [t|] eqn:Ht.
  - rewrite filter_cons_True by (rewrite Ht; eauto).
    rewrite (parse_commit_keep c t name msg full Ht Hc).
    constructor; [|done]. split; [done|]. exists full. done.
  - rewrite filter_cons_False by (rewrite Ht; intros [? [=]]).
    destruct (parse_commit_skip c Ht) as [e ->]. done.
Qed.

Lemma length_filter_timestamp (l : list pyval) :
  length (filter (fun c => is_Some (timestamp_of c)) l)
  + length (filter (fun c => timestamp_of c = None) l)
  = length l.
Proof.
  induction l as [|c l IH]; [done|].
  destruct (timestamp_of c) as [t|] eqn:Ht.
  - rewrite filter_cons_True by (rewrite Ht; eauto).
    rewrite filter_cons_False by (by rewrite Ht). simpl. lia.
  - rewrite filter_cons_False by (rewrite Ht; intros [? [=]]).
    rewrite filter_cons_True by done. simpl. lia.
Qed.

Lemma process_totals activity_data commits_data d :
  process_commit_activity activity_data commits_data = OK d →
  ∃ totals, Forall2 (fun w x => week_total w = Some x) activity_data totals
            ∧ weekly_commits d = Np.Zsum totals
            ∧ activity_by_week d = activity_data
            ∧ commit_history d = build_commit_history commits_data
            ∧ total_commits d = length commits_data.
Proof.
  unfold process_commit_activity. intros H.
  apply bind_OK in H as (raw & Hraw & H). apply bind_OK in H as (z & Hz & H).
  injection H as <-. simpl.
  apply traverse_OK_Forall2 in Hraw. apply sum_from_OK in Hz as (zs & Hzs & ->).
  exists zs. repeat split; try done.
  clear -Hraw Hzs. revert zs Hzs.
  induction Hraw as [|w v ws vs Hw _ IH]; intros zs Hzs; inversion Hzs; subst.
  - constructor.
  - constructor; [|by apply IH].
    unfold week_total. by rewrite (getitem_OK_field _ _ _ Hw).
Qed.

Lemma process_succeeds activity_data commits_data :
  Forall (fun w => is_Some (week_total w)) activity_data →
  ∃ d, process_commit_activity activity_data commits_data = OK d.
Proof.
  intros Hweeks. unfold process_commit_activity.
  assert (∃ raw, traverse (fun week => getitem week "total") activity_data = OK raw
                 ∧ Forall (fun v => is_Some (as_int v)) raw) as (raw & -> & Hraw).
  { induction Hweeks as [|w ws [x Hx] _ (raw & IH & Hraw)]; simpl.
    - exists []. by split.
    - unfold week_total in Hx. destruct (field "total" w) as [v|] eqn:Hv; [|done].
      rewrite (getitem_field _ _ _ Hv), IH. simpl. exists (v :: raw).
      split; [done|]. constructor; eauto. }
  simpl. unfold Py.sum. generalize 0%Z.
  induction Hraw as [|v vs [x Hx] _ IH]; intros acc; simpl; [eauto|].
  unfold add_int. rewrite Hx. simpl. apply IH.
Qed.


(** C3.  Normalization skips exactly the raw commit records whose author
    timestamp does not parse, keeps the others in input order (converted:
    parsed date, message and author name as given, SHA cut to 7 characters),
    and sets the total commit count to the number of raw records, counted
    before any is skipped. *)
Theorem C3_commit_normalization (activity_response commits_response : response) :
  status_code activity_response = 200%Z →
  status_code commits_response = 200%Z →
  Forall (fun w => is_Some (week_total w)) (json activity_response) →
  Forall (fun c => ∃ name msg full, exposes c name msg full) (json commits_response) →
  ∃ d, fetch_commit_activity activity_response commits_response = Some d
       ∧ Forall2 converted
                 (filter (fun c => is_Some (timestamp_of c)) (json commits_response))
                 (commit_history d)
       ∧ total_commits d = length (json commits_response)
       ∧ length (commit_history d)
         + length (filter (fun c => timestamp_of c = None) (json commits_response))
         = length (json commits_response).
Proof.
  intros Ha Hc Hweeks Hcommits.
  destruct (process_succeeds _ (json commits_response) Hweeks) as [d Hd].
  exists d. unfold fetch_commit_activity. rewrite Ha, Hc, Hd. simpl.
  apply process_totals in Hd as (_ & _ & _ & _ & Hhist & Htotal).
  pose proof (build_commit_history_filter _ Hcommits) as Hconv.
  rewrite <- Hhist in Hconv.
  repeat split; try done.
  rewrite <- (Forall2_length _ _ _ Hconv). apply length_filter_timestamp.
Qed.


(** What [fetch_commit_activity] returns carries integer weekly totals, so
    [calculate_statistics] gets past its reading of the totals. *)
Lemma fetch_totals_numeric (activity_response commits_response : response) d :
  fetch_commit_activity activity_response commits_response = Some d →
  ∃ totals, weekly_totals_of datetime d = OK totals
            ∧ weekly_commits d = Np.Zsum totals
            ∧ total_commits d = length (json commits_response).
Proof.
  unfold fetch_commit_activity. destruct (_ && _); [|done].
  destruct (process_commit_activity _ _) as [d'|] eqn:Hd; [|done].
  intros [= ->]. apply process_totals in Hd as (totals & Hw & Hsum & Hweeks & _ & Hn).
  exists totals. repeat split; try done.
  unfold weekly_totals_of. rewrite Hweeks. clear -Hw.
  revert Hw. generalize (json activity_response). intros activity_data Hw.
  assert (∃ raw, traverse (fun week => getitem week "total") activity_data = OK raw
                 ∧ Np.asarray raw = OK totals) as (raw & -> & Hraw); [|done].
  induction Hw as [|w x ws xs Hx _ (raw & IH & Hraw)]; simpl.
  - by exists [].
  - unfold week_total in Hx. destruct (field "total" w) as [v|] eqn:Hv; [|done].
    exists (v :: raw). rewrite (getitem_field _ _ _ Hv), IH. simpl.
    split; [done|]. unfold Np.asarray in *. simpl. by rewrite Hx, Hraw.
Qed.

End NormalizerFacts.

Lemma C3_witness :
  ∃ d, fetch_commit_activity Sample.stamp Sample.strptime
         {| status_code := 200; json := [Sample.raw_week 1715472000 4] |}
         {| status_code := 200; json := Sample.five_commits |} = Some d
       ∧ length (commit_history d) = 3
       ∧ total_commits d = 5
       ∧ map sha (commit_history d) = [PStr "1f0c3a9"; PStr "3b2e5c1"; PStr "5d4a7e3"].
Proof.
  destruct (C3_commit_normalization Sample.stamp Sample.strptime
              {| status_code := 200; json := [Sample.raw_week 1715472000 4] |}
              {| status_code := 200; json := Sample.five_commits |})
    as (d & Hd & Hconv & Htotal & Hlen).
  - reflexivity.
  - reflexivity.
  - repeat constructor; vm_compute; eauto.
  - repeat constructor; vm_compute; eauto 10.
  - exists d. vm_compute in Hd. injection Hd as <-. vm_compute. auto.
Defined.

(** Two remarks on the edges of C3 and C4.  The [try] of the commit loop
    covers the other three fields as well, so a record with a good timestamp
    and no SHA is skipped too; and a JSON [true] is a number for [sum]. *)
Example skipped_without_sha :
  build_commit_history Sample.stamp Sample.strptime
    [PDict [("commit",
             PDict [("author", PDict [("name", PStr "ada");
                                      ("date", PStr "2024-05-17T09:30:00Z")]);
                    ("message", PStr "Add parser")])]]
  = [].
Proof. reflexivity. Qed.

Example boolean_total_counts :
  option_map weekly_commits
    (fetch_commit_activity Sample.stamp Sample.strptime
       {| status_code := 200;
          json := [Sample.raw_week 0 3;
                   PDict [("week", PInt 604800); ("total", PBool true)]] |}
       {| status_code := 200; json := [] |})
  = Some 4%Z.
Proof. reflexivity. Qed.


(** ** Statistics Engine *)



Section Rounding.

Local Open Scope Q_scope.





End Rounding.






Section StatisticsFacts.

Variable datetime : Type.

Local Abbreviation weekly_totals_of := (weekly_totals_of datetime).
Local Abbreviation calculate_statistics := (calculate_statistics datetime).


Lemma calculate_statistics_nonempty (d : activity datetime) totals :
  weekly_totals_of d = OK totals → totals ≠ [] →
  ∃ hi lo final,
    py_max totals = OK hi ∧ py_min totals = OK lo
    ∧ last (drop (length totals - 12) totals) = Some final
    ∧ calculate_statistics d
      = OK {| Total_Commits := total_commits d;
              Average_Weekly_Commits := Np.round2 (Np.mean totals);
              Median_Weekly_Commits := Np.median totals;
              Highest_Weekly_Activity := hi;
              Lowest_Weekly_Activity := lo;
              Standard_Deviation := Np.round2_sqrt (Np.var totals);
              Recent_Activity_Trend :=
                if Np.int_gt final
                     (Np.mean (take (length (drop (length totals - 12) totals) - 1)
                                    (drop (length totals - 12) totals)))
                then "Increasing" else "Decreasing" |}.
Proof.
  intros Htotals Hne. unfold calculate_statistics. rewrite Htotals. simpl.
  destruct (last (drop (length totals - 12) totals)) as [final|] eqn:Hlast.
  - destruct totals as [|x l]; [done|].
    exists (foldl Z.max x l), (foldl Z.min x l), final.
    unfold py_last. rewrite Hlast. done.
  - apply last_None in Hlast. apply (f_equal length) in Hlast.
    rewrite length_drop in Hlast. destruct totals; [done|]. simpl in Hlast. lia.
Qed.


(** C5.  On a dataset without weekly records no statistics are produced:
    the call fails, with the [ValueError] that [max] raises on an empty
    sequence. *)
Theorem C5_empty_dataset_fails (d : activity datetime) :
  activity_by_week d = [] →
  calculate_statistics d = Raise ValueError.
Proof. intros H. unfold calculate_statistics, weekly_totals_of. by rewrite H. Qed.

(** C2, as the code behaves.  With a single weekly total the trend window
    has one element, the mean of "the others" is [nan], the comparison
    with it is false, and the label is "Decreasing": the statistics are
    returned and no failure is signalled. *)
Theorem C2_single_week_labelled (d : activity datetime) (z : Z) :
  weekly_totals_of d = OK [z] →
  ∃ s, calculate_statistics d = OK s
       ∧ Recent_Activity_Trend s = "Decreasing"
       ∧ Highest_Weekly_Activity s = z.
Proof.
  intros Htotals. unfold calculate_statistics. rewrite Htotals. simpl.
  eexists. split; [reflexivity|]. done.
Qed.

(** C10.  The report's total commits is the dataset's [total_commits]
    field.  It does not depend on the weekly records beyond their allowing a
    report at all, and the stored sum of the weekly totals plays no part in
    any entry of the report. *)
Theorem C10_total_commits_field (d : activity datetime) (s : stats) :
  calculate_statistics d = OK s →
  Total_Commits s = total_commits d
  ∧ (∀ (d' : activity datetime) s',
       calculate_statistics d' = OK s' →
       total_commits d' = total_commits d →
       Total_Commits s' = Total_Commits s)
  ∧ (∀ w, calculate_statistics (with_weekly_commits w d) = OK s).
Proof.
  assert (∀ (x : activity datetime) r,
             calculate_statistics x = OK r → Total_Commits r = total_commits x) as Hfield.
  { intros x r. unfold calculate_statistics. intros H.
    apply bind_OK in H as (? & _ & H). apply bind_OK in H as (? & _ & H).
    apply bind_OK in H as (? & _ & H). apply bind_OK in H as (? & _ & H).
    by injection H as <-. }
  intros Hs. split; [by apply Hfield|]. split.
  - intros d' s' Hs' Heq. by rewrite (Hfield _ _ Hs), (Hfield _ _ Hs').
  - intros w. by rewrite <- Hs.
Qed.


End StatisticsFacts.


Lemma C2_witness :
  ∃ s, calculate_statistics Sample.stamp (Sample.of_totals [5]%Z 30) = OK s
       ∧ Recent_Activity_Trend s = "Decreasing"
       ∧ Highest_Weekly_Activity s = 5%Z.
Proof. apply (C2_single_week_labelled Sample.stamp _ 5%Z). reflexivity. Defined.

Lemma C5_witness :
  calculate_statistics Sample.stamp (Sample.of_totals [] 30) = Raise ValueError.
Proof. apply C5_empty_dataset_fails. reflexivity. Defined.



Lemma C10_witness :
  ∃ s s',
    calculate_statistics Sample.stamp (Sample.of_totals [1; 2; 3]%Z 30) = OK s
    ∧ calculate_statistics Sample.stamp (Sample.of_totals [40; 0; 7; 7]%Z 30) = OK s'
    ∧ Total_Commits s = 30 ∧ Total_Commits s' = 30
    ∧ Average_Weekly_Commits s ≠ Average_Weekly_Commits s'.
Proof.
  eexists _, _. split; [reflexivity|]. split; [reflexivity|].
  destruct (C10_total_commits_field Sample.stamp
              (Sample.of_totals [1; 2; 3]%Z 30) _ eq_refl) as (H1 & H2 & _).
  split; [exact H1|]. split.
  - rewrite (H2 (Sample.of_totals [40; 0; 7; 7]%Z 30) _ eq_refl eq_refl). exact H1.
  - vm_compute. intros [=].
Defined.

(** ** Export Projector *)

Lemma length_str_take n s : String.length (str_take n s) = min n (String.length s).
Proof.
  unfold str_take. revert s. induction n as [|n IH]; intros [|c s]; simpl; try done.
  by rewrite IH.
Qed.

Lemma for_each_spec {A} (body : A → io export_row) (cost : nat)
    (P : nat → A → export_row → Prop) :
  (∀ x t r t', body x t = OK (r, t') → t' = (t + cost)%nat ∧ P t x r) →
  ∀ l t rows t',
    for_each body l t = OK (rows, t') →
    t' = (t + cost * length l)%nat
    ∧ length rows = length l
    ∧ ∀ j r, rows !! j = Some r → ∃ x, l !! j = Some x ∧ P (t + cost * j)%nat x r.
Proof.
  intros Hbody. induction l as [|x l IH]; intros t rows t' H.
  - injection H as <- <-. simpl. split; [lia|]. split; [done|]. by intros j r.
  - simpl in H. unfold io_bind in H.
    destruct (body x t) as [[r0 t1]|] eqn:Hx; [|done].
    destruct (for_each body l t1) as [[rs t2]|] eqn:Hl; [|done].
    injection H as <- <-.
    apply Hbody in Hx as [-> Hx]. apply IH in Hl as (-> & Hlen & Hrows).
    split; [simpl; lia|]. split; [simpl; by rewrite Hlen|].
    intros [|j] r; simpl.
    + intros [= <-]. exists x. split; [done|]. by rewrite Nat.mul_0_r, Nat.add_0_r.
    + intros Hr. apply Hrows in Hr as (y & Hy & HP). exists y. split; [done|].
      by replace (t + cost * S j)%nat with (t + cost + cost * j)%nat by lia.
Qed.

Lemma for_each_succeeds {A} (body : A → io export_row) (l : list A) :
  Forall (fun x => ∀ t, ∃ r t', body x t = OK (r, t')) l →
  ∀ t, ∃ rows t', for_each body l t = OK (rows, t').
Proof.
  induction 1 as [|x l Hx _ IH]; intros t; simpl.
  - by eexists _, _.
  - unfold io_bind. destruct (Hx t) as (r & t1 & ->).
    destruct (IH t1) as (rs & t2 & ->). by eexists _, _.
Qed.

Lemma export_message_str m :
  export_message (PStr m)
  = OK (PStr (if (100 <? String.length m)%nat then str_take 100 m ++ "..." else m)).
Proof. unfold export_message. simpl. by destruct (100 <? String.length m)%nat. Qed.

Section ExportFacts.

Variable datetime : Type.
Variable py_str : pyval → string.
Variable strftime : datetime → string.
Variable clock : nat → datetime.

Local Abbreviation metadata_row := (metadata_row datetime py_str strftime clock).
Local Abbreviation contributor_row := (contributor_row datetime strftime clock).
Local Abbreviation commit_row := (commit_row datetime strftime).
Local Abbreviation export_rows := (export_rows datetime py_str strftime clock).
Local Abbreviation prepare_dataframe_for_export :=
  (prepare_dataframe_for_export datetime py_str strftime clock).
Local Abbreviation is_metadata_row := (is_metadata_row datetime py_str strftime clock).
Local Abbreviation is_contributor_row := (is_contributor_row datetime strftime clock).
Local Abbreviation is_commit_row := (is_commit_row datetime strftime).

Lemma metadata_row_spec item t r t' :
  metadata_row item t = OK (r, t') → t' = (t + 1)%nat ∧ is_metadata_row t item r.
Proof. intros [= <- <-]. split; [lia | done]. Qed.

Lemma contributor_row_spec c t r t' :
  contributor_row c t = OK (r, t') → t' = (t + 1)%nat ∧ is_contributor_row t c r.
Proof.
  unfold contributor_row, io_bind, lift.
  destruct (getitem c "login") as [login|] eqn:Hl; [|done].
  destruct (getitem c "contributions") as [n|] eqn:Hn; [|done].
  intros [= <- <-]. split; [lia|].
  apply getitem_OK_field in Hl, Hn. by repeat split.
Qed.

Lemma commit_row_spec c t r t' :
  commit_row c t = OK (r, t') → t' = (t + 0)%nat ∧ is_commit_row t c r.
Proof.
  unfold commit_row, io_bind, lift.
  destruct (export_message (message c)) as [v|] eqn:Hv; [|done].
  intros [= <- <-]. split; [lia|]. by repeat split.
Qed.

(** The rows of a successful export, loop by loop. *)
Lemma export_sections metadata contributors (d : activity datetime) rows :
  prepare_dataframe_for_export metadata contributors d = OK rows →
  ∃ ms cs hs,
    rows = (ms ++ cs ++ hs)%list
    ∧ length ms = length metadata
    ∧ length cs = min 10 (length contributors)
    ∧ length hs = min 20 (length (commit_history d))
    ∧ (∀ i r, ms !! i = Some r →
         ∃ item, metadata !! i = Some item ∧ is_metadata_row i item r)
    ∧ (∀ j r, cs !! j = Some r →
         ∃ c, (j < 10)%nat ∧ contributors !! j = Some c
              ∧ is_contributor_row (length metadata + j) c r)
    ∧ (∀ k r, hs !! k = Some r →
         ∃ c, (k < 20)%nat ∧ commit_history d !! k = Some c ∧ is_commit_row 0 c r).
Proof.
  unfold prepare_dataframe_for_export, export_rows, io_bind.
  destruct (for_each metadata_row metadata 0) as [[ms t1]|] eqn:Hm; [|done].
  destruct (for_each contributor_row _ t1) as [[cs t2]|] eqn:Hc; [|done].
  destruct (for_each commit_row _ t2) as [[hs t3]|] eqn:Hh; [|done].
  intros [= <-]. exists ms, cs, hs.
  apply (for_each_spec _ 1 is_metadata_row metadata_row_spec) in Hm as (-> & Hlm & Hm).
  apply (for_each_spec _ 1 is_contributor_row contributor_row_spec) in Hc as (-> & Hlc & Hc).
  apply (for_each_spec _ 0 (fun _ => is_commit_row 0)) in Hh as (_ & Hlh & Hh);
    [|intros c t r t' H; apply commit_row_spec in H as [? H]; by split].
  rewrite length_take in Hlc. rewrite length_take in Hlh.
  repeat split; try done.
  - intros i r Hr. apply Hm in Hr as (item & Hi & Hr). exists item.
    by rewrite Nat.mul_1_l in Hr.
  - intros j r Hr. apply Hc in Hr as (c & Hj & Hr).
    apply lookup_take_Some in Hj as [Hj Hlt]. exists c.
    by rewrite Nat.mul_1_l, Nat.mul_1_l in Hr.
  - intros k r Hr. apply Hh in Hr as (c & Hk & Hr).
    apply lookup_take_Some in Hk as [Hk Hlt]. by exists c.
Qed.

Lemma lookup_third {A} (ms cs hs : list A) k :
  (ms ++ cs ++ hs)%list !! (length ms + length cs + k)%nat = hs !! k.
Proof.
  rewrite lookup_app_r by lia. rewrite lookup_app_r by lia. f_equal. lia.
Qed.

Lemma lookup_second {A} (ms cs hs : list A) j :
  (j < length cs)%nat → (ms ++ cs ++ hs)%list !! (length ms + j)%nat = cs !! j.
Proof.
  intros Hj. rewrite lookup_app_r by lia. rewrite lookup_app_l by lia. f_equal. lia.
Qed.

Lemma categories_replicate (l : list export_row) c :
  (∀ i r, l !! i = Some r → Category r = c) →
  map Category l = replicate (length l) c.
Proof.
  induction l as [|r l IH]; intros H; simpl; [done|].
  rewrite (H 0%nat r eq_refl). f_equal. apply IH. intros i. apply (H (S i)).
Qed.

(** C7 (amended).  A metadata row or a contributor row carries the wall
    clock as read when that row is built, one reading per row, so these rows
    agree whenever the clock shows the same second throughout the call; a
    commit row carries the timestamp of its own commit record. *)
Theorem C7_row_dates metadata contributors (d : activity datetime) rows :
  prepare_dataframe_for_export metadata contributors d = OK rows →
  ∃ ms cs hs,
    rows = (ms ++ cs ++ hs)%list
    ∧ length ms = length metadata
    ∧ length cs = min 10 (length contributors)
    ∧ length hs = min 20 (length (commit_history d))
    ∧ (∀ i r, ms !! i = Some r →
         Category r = "Metadata" ∧ Date r = strftime (clock i))
    ∧ (∀ j r, cs !! j = Some r →
         Category r = "Contributors"
         ∧ Date r = strftime (clock (length metadata + j)))
    ∧ (∀ k r, hs !! k = Some r →
         Category r = "Commits"
         ∧ ∃ c, commit_history d !! k = Some c ∧ Date r = strftime (date c))
    ∧ (∀ shown, (∀ n, strftime (clock n) = shown) →
         ∀ r, r ∈ (ms ++ cs)%list → Date r = shown).
Proof.
  intros H. apply export_sections in H
    as (ms & cs & hs & -> & Hlm & Hlc & Hlh & Hm & Hc & Hh).
  exists ms, cs, hs.
  split; [done|]. split; [done|]. split; [done|]. split; [done|].
  split; [|split; [|split]].
  - intros i r Hr. by apply Hm in Hr as (item & _ & ->).
  - intros j r Hr. by apply Hc in Hr as (c & _ & _ & ? & _ & _ & ?).
  - intros k r Hr. apply Hh in Hr as (c & _ & ? & ? & _ & _ & ?).
    split; [done|]. by exists c.
  - intros shown Hshown r Hr. apply elem_of_app in Hr as [Hr|Hr];
      apply list_elem_of_lookup in Hr as [i Hr].
    + apply Hm in Hr as (item & _ & ->). apply Hshown.
    + apply Hc in Hr as (c & _ & _ & _ & _ & _ & ->). apply Hshown.
Qed.

(** C8.  The export has one row per metadata field, then one row per
    contributor for the first 10 contributors at most, then one row per
    commit entry for the first 20 entries at most, each group in input
    order. *)
Theorem C8_export_layout metadata contributors (d : activity datetime) :
  Forall (fun c => is_Some (field "login" c) ∧ is_Some (field "contributions" c))
         (take 10 contributors) →
  Forall (fun c => ∃ m, message c = PStr m) (take 20 (commit_history d)) →
  ∃ rows,
    prepare_dataframe_for_export metadata contributors d = OK rows
    ∧ length rows
      = (length metadata + min 10 (length contributors)
         + min 20 (length (commit_history d)))%nat
    ∧ map Category rows
      = (replicate (length metadata) "Metadata"
         ++ replicate (min 10 (length contributors)) "Contributors"
         ++ replicate (min 20 (length (commit_history d))) "Commits")%list
    ∧ (∀ i item, metadata !! i = Some item →
         ∃ r, rows !! i = Some r
              ∧ Item r = PStr (fst item) ∧ Value r = PStr (py_str (snd item)))
    ∧ (∀ j c, (j < 10)%nat → contributors !! j = Some c →
         ∃ r, rows !! (length metadata + j)%nat = Some r
              ∧ field "login" c = Some (Item r)
              ∧ field "contributions" c = Some (Value r))
    ∧ (∀ k c, (k < 20)%nat → commit_history d !! k = Some c →
         ∃ r, rows !! (length metadata + min 10 (length contributors) + k)%nat = Some r
              ∧ Item r = sha c).
Proof.
  intros Hcontrib Hcommits.
  assert (∃ rows, prepare_dataframe_for_export metadata contributors d = OK rows)
    as [rows Hrows].
  { unfold prepare_dataframe_for_export, export_rows, io_bind.
    destruct (for_each_succeeds metadata_row metadata) with (t := 0%nat)
      as (ms & t1 & ->).
    { apply Forall_forall. intros item _ t. by eexists _, _. }
    destruct (for_each_succeeds contributor_row (take 10 contributors)) with (t := t1)
      as (cs & t2 & ->).
    { eapply Forall_impl; [exact Hcontrib|]. intros c [[l Hl] [n Hn]] t.
      unfold contributor_row, io_bind, lift.
      rewrite (getitem_field _ _ _ Hl), (getitem_field _ _ _ Hn). by eexists _, _. }
    destruct (for_each_succeeds commit_row (take 20 (commit_history d))) with (t := t2)
      as (hs & t3 & ->).
    { eapply Forall_impl; [exact Hcommits|]. intros c [m Hm] t.
      unfold commit_row, io_bind, lift. rewrite Hm, export_message_str.
      by eexists _, _. }
    by eexists. }
  exists rows. split; [done|].
  apply export_sections in Hrows
    as (ms & cs & hs & -> & Hlm & Hlc & Hlh & Hm & Hc & Hh).
  split; [|split; [|split; [|split]]].
  - rewrite !length_app. lia.
  - rewrite !map_app. rewrite <- Hlm, <- Hlc, <- Hlh. f_equal; [|f_equal].
    + apply categories_replicate. intros i r Hr. by apply Hm in Hr as (? & _ & ->).
    + apply categories_replicate. intros i r Hr. by apply Hc in Hr as (? & _ & _ & ? & _).
    + apply categories_replicate. intros i r Hr. by apply Hh in Hr as (? & _ & _ & ? & _).
  - intros i item Hi.
    destruct (lookup_lt_is_Some_2 ms i) as [r Hr].
    { rewrite Hlm. by eapply lookup_lt_Some. }
    exists r. rewrite lookup_app_l by (by eapply lookup_lt_Some). split; [done|].
    apply Hm in Hr as (item' & Hi' & ->). rewrite Hi in Hi'. by injection Hi' as <-.
  - intros j c Hj Hc'.
    destruct (lookup_lt_is_Some_2 cs j) as [r Hr].
    { rewrite Hlc. apply lookup_lt_Some in Hc'. lia. }
    exists r. rewrite <- Hlm, lookup_second by (by eapply lookup_lt_Some).
    split; [done|].
    apply Hc in Hr as (c'' & _ & Hc'' & _ & ? & ? & _).
    rewrite Hc' in Hc''. by injection Hc'' as <-.
  - intros k c Hk Hc'.
    destruct (lookup_lt_is_Some_2 hs k) as [r Hr].
    { rewrite Hlh. apply lookup_lt_Some in Hc'. lia. }
    exists r. rewrite <- Hlm, <- Hlc, lookup_third. split; [done|].
    apply Hh in Hr as (c'' & _ & Hc'' & _ & ? & _).
    rewrite Hc' in Hc''. by injection Hc'' as <-.
Qed.

(** C9.  In the row of a commit entry, a message of more than 100
    characters is exported as its first 100 characters followed by "...",
    and a message of at most 100 characters is exported unchanged; the rows
    of category "Commits" are exactly the rows of the first 20 entries. *)
Theorem C9_message_truncation metadata contributors (d : activity datetime) rows :
  prepare_dataframe_for_export metadata contributors d = OK rows →
  (∀ k c, (k < 20)%nat → commit_history d !! k = Some c →
     ∃ r, rows !! (length metadata + min 10 (length contributors) + k)%nat = Some r
          ∧ Category r = "Commits"
          ∧ Item r = sha c
          ∧ ∀ m, message c = PStr m →
              ((100 < String.length m)%nat →
               Value r = PStr (str_take 100 m ++ "...")
               ∧ String.length (str_take 100 m) = 100%nat)
              ∧ ((String.length m ≤ 100)%nat → Value r = PStr m))
  ∧ (∀ r, r ∈ rows → Category r = "Commits" →
       ∃ k c, (k < 20)%nat ∧ commit_history d !! k = Some c
              ∧ rows !! (length metadata + min 10 (length contributors) + k)%nat
                = Some r).
Proof.
  intros H. apply export_sections in H
    as (ms & cs & hs & -> & Hlm & Hlc & Hlh & Hm & Hc & Hh).
  rewrite <- Hlm, <- Hlc. split.
  - intros k c Hk Hc'.
    destruct (lookup_lt_is_Some_2 hs k) as [r Hr].
    { rewrite Hlh. apply lookup_lt_Some in Hc'. lia. }
    exists r. rewrite lookup_third. split; [done|].
    apply Hh in Hr as (c'' & _ & Hc'' & Hcat & Hitem & Hval & _).
    rewrite Hc' in Hc''. injection Hc'' as <-.
    split; [done|]. split; [done|]. intros m Hmsg.
    rewrite Hmsg, export_message_str in Hval. injection Hval as <-.
    split; intros Hlen.
    + apply Nat.ltb_lt in Hlen as Hlt. rewrite Hlt. split; [done|].
      rewrite length_str_take. lia.
    + apply Nat.ltb_ge in Hlen. by rewrite Hlen.
  - intros r Hr Hcat. rewrite !elem_of_app in Hr. destruct Hr as [Hr|[Hr|Hr]];
      apply list_elem_of_lookup in Hr as [i Hr].
    + apply Hm in Hr as (? & _ & ->). discriminate Hcat.
    + apply Hc in Hr as (? & _ & _ & Hcat' & _). rewrite Hcat' in Hcat.
      discriminate Hcat.
    + exists i. pose proof Hr as Hr'.
      apply Hh in Hr as (c & Hi & Hc' & _). exists c. by rewrite lookup_third.
Qed.

End ExportFacts.

(** The specification's reading does not hold of the code: with the clock
    standing still during the call, the commit rows still differ from the
    other rows, because each carries the date of its own commit. *)
Lemma C7_counterexample :
  ∃ rows,
    prepare_dataframe_for_export Sample.stamp Sample.str Sample.strftime Sample.frozen
      Sample.metadata (Sample.many_contributors 2) Sample.fetched = OK rows
    ∧ ¬ (∃ shown, ∀ r, r ∈ rows → Date r = shown)
    ∧ ∃ r c, r ∈ rows ∧ c ∈ commit_history Sample.fetched
             ∧ Category r = "Commits" ∧ Item r = sha c
             ∧ Date r = Sample.strftime (date c)
             ∧ ∀ n, Date r ≠ Sample.strftime (Sample.frozen n).
Proof.
  eexists. split; [vm_compute; reflexivity|]. split.
  - intros [shown H].
    pose proof (H _ ltac:(apply list_elem_of_lookup; by exists 0%nat)) as H0.
    pose proof (H _ ltac:(apply list_elem_of_lookup; by exists 5%nat)) as H5.
    simpl in H0, H5. congruence.
  - eexists _, _.
    split; [apply list_elem_of_lookup; by exists 5%nat|].
    split; [apply list_elem_of_lookup; by exists 0%nat|].
    repeat split. intros n. vm_compute. intros [=].
Qed.

Lemma C7_witness :
  ∃ rows ms cs hs,
    prepare_dataframe_for_export Sample.stamp Sample.str Sample.strftime Sample.frozen
      Sample.metadata (Sample.many_contributors 2) Sample.fetched = OK rows
    ∧ rows = (ms ++ cs ++ hs)%list
    ∧ length ms = 3 ∧ length cs = 2 ∧ length hs = 3
    ∧ ∀ r, r ∈ (ms ++ cs)%list → Date r = "2024-05-17 12:00:00".
Proof.
  destruct (prepare_dataframe_for_export Sample.stamp Sample.str Sample.strftime
              Sample.frozen Sample.metadata (Sample.many_contributors 2) Sample.fetched)
    as [rows|] eqn:Hrows; [|discriminate Hrows].
  destruct (C7_row_dates _ _ _ _ _ _ _ _ Hrows)
    as (ms & cs & hs & Heq & Hlm & Hlc & Hlh & _ & _ & _ & Hshown).
  exists rows, ms, cs, hs. repeat split; try done.
  apply Hshown. reflexivity.
Defined.

Lemma C8_witness :
  ∃ rows,
    prepare_dataframe_for_export Sample.stamp Sample.str Sample.strftime Sample.ticking
      Sample.metadata (Sample.many_contributors 12)
      (Sample.of_history (Sample.many_entries 25)) = OK rows
    ∧ length rows = 33.
Proof.
  destruct (C8_export_layout Sample.stamp Sample.str Sample.strftime Sample.ticking
              Sample.metadata (Sample.many_contributors 12)
              (Sample.of_history (Sample.many_entries 25)))
    as (rows & Hrows & Hlen & _).
  - vm_compute. repeat (constructor || eexists).
  - vm_compute. repeat (constructor || eexists).
  - exists rows. split; [exact Hrows|]. rewrite Hlen. reflexivity.
Defined.

Lemma C9_witness :
  ∃ rows long short,
    prepare_dataframe_for_export Sample.stamp Sample.str Sample.strftime Sample.ticking
      Sample.metadata (Sample.many_contributors 2)
      (Sample.of_history [Sample.entry (Sample.text 150); Sample.entry (Sample.text 50)])
    = OK rows
    ∧ rows !! 5%nat = Some long ∧ rows !! 6%nat = Some short
    ∧ Value long = PStr (Sample.text 100 ++ "...")
    ∧ Value short = PStr (Sample.text 50).
Proof.
  destruct (prepare_dataframe_for_export Sample.stamp Sample.str Sample.strftime
              Sample.ticking Sample.metadata (Sample.many_contributors 2)
              (Sample.of_history [Sample.entry (Sample.text 150);
                                  Sample.entry (Sample.text 50)]))
    as [rows|] eqn:Hrows; [|discriminate Hrows].
  destruct (C9_message_truncation _ _ _ _ _ _ _ _ Hrows) as [Hrow _].
  destruct (Hrow 0%nat (Sample.entry (Sample.text 150))) as (long & Hl & _ & _ & Hlong);
    [lia | reflexivity |].
  destruct (Hrow 1%nat (Sample.entry (Sample.text 50))) as (short & Hs & _ & _ & Hshort);
    [lia | reflexivity |].
  exists rows, long, short. split; [reflexivity|]. split; [exact Hl|]. split; [exact Hs|].
  split.
  - destruct (Hlong _ eq_refl) as [Hcut _]. destruct Hcut as [-> _]; [vm_compute; lia|].
    reflexivity.
  - destruct (Hshort _ eq_refl) as [_ Hkeep]. apply Hkeep. vm_compute. lia.
Defined.

(** * Beyond the specified core

    URL parsing, the requests, the analyzer, and further properties of the
    statistics and of the export. *)

(** ** Strings and URL parsing *)

Section Strings.

Variable c : ascii.

Lemma str_app_cons x (a b : string) : String x a ++ b = String x (a ++ b).
Proof. reflexivity. Qed.

Lemma str_app_nil_l (b : string) : "" ++ b = b.
Proof. reflexivity. Qed.

Lemma str_app_assoc (a b d : string) : (a ++ b) ++ d = a ++ b ++ d.
Proof. induction a as [|x a IH]; [done|]. by rewrite !str_app_cons, IH. Qed.

Lemma split_nonempty s : Str.split c s ≠ [].
Proof.
  destruct s as [|a s]; simpl; [done|].
  destruct (Ascii.eqb a c); [done|]. by destruct (Str.split c s).
Qed.

Lemma split_app a b :
  Str.split c (a ++ String c b) = (Str.split c a ++ Str.split c b)%list.
Proof.
  induction a as [|x a IH]; rewrite ?str_app_cons, ?str_app_nil_l; simpl.
  - by rewrite Ascii.eqb_refl.
  - destruct (Ascii.eqb x c); [by rewrite IH|].
    rewrite IH. pose proof (split_nonempty a) as Hne.
    by destruct (Str.split c a).
Qed.

Lemma split_without s : Str.has c s = false → Str.split c s = [s].
Proof.
  induction s as [|a s IH]; simpl; [done|].
  intros H. apply orb_false_iff in H as [Ha Hs]. rewrite Ha, (IH Hs). done.
Qed.

Lemma split_one_part s : length (Str.split c s) = 1%nat → Str.has c s = false.
Proof.
  induction s as [|a s IH]; simpl; [done|].
  destruct (Ascii.eqb a c); simpl.
  - pose proof (split_nonempty s). destruct (Str.split c s); [done|]. simpl. lia.
  - destruct (Str.split c s) as [|p ps] eqn:E; [by destruct (split_nonempty s)|].
    simpl in *. auto.
Qed.

Lemma split_parts_without s : Forall (fun p => Str.has c p = false) (Str.split c s).
Proof.
  induction s as [|a s IH]; simpl; [by repeat constructor|].
  destruct (Ascii.eqb a c) eqn:Ha; [by constructor|].
  destruct (Str.split c s) as [|p ps]; [repeat constructor; simpl; by rewrite Ha|].
  inversion IH; subst. constructor; [|done]. simpl. by rewrite Ha.
Qed.

(** The last part is empty only for the empty string and for a string that
    ends with the separator. *)
Lemma split_last_empty s :
  last (Str.split c s) = Some "" → s = "" ∨ ∃ t, s = t ++ String c "".
Proof.
  induction s as [|a s IH]; simpl; [by left|]. intros H. right.
  destruct (Ascii.eqb a c) eqn:Ha.
  - apply Ascii.eqb_eq in Ha as ->.
    pose proof (split_nonempty s) as Hne.
    destruct (Str.split c s) as [|p ps] eqn:E; [done|].
    change (last ("" :: p :: ps)) with (last (p :: ps)) in H.
    destruct (IH H) as [->|[t ->]]; [by exists ""|]. by exists (String c t).
  - destruct (Str.split c s) as [|p ps] eqn:E; [done|].
    destruct ps as [|q qs]; [done|].
    change (last (String a p :: q :: qs)) with (last (p :: q :: qs)) in H.
    destruct (IH H) as [->|[t ->]]; [done|]. by exists (String a t).
Qed.

Lemma rstrip_app a b :
  Str.rstrip c (a ++ b)
  = match Str.rstrip c b with "" => Str.rstrip c a | _ => a ++ Str.rstrip c b end.
Proof.
  induction a as [|x a IH]; rewrite ?str_app_cons, ?str_app_nil_l; simpl.
  - by destruct (Str.rstrip c b).
  - rewrite IH. destruct (Str.rstrip c b) as [|y t]; [done|].
    by destruct a.
Qed.

Lemma rstrip_rep k : Str.rstrip c (Str.rep c k) = "".
Proof. induction k as [|k IH]; simpl; [done|]. by rewrite IH, Ascii.eqb_refl. Qed.

Lemma rstrip_without s : Str.has c s = false → Str.rstrip c s = s.
Proof.
  induction s as [|a s IH]; simpl; [done|].
  intros H. apply orb_false_iff in H as [Ha Hs]. rewrite (IH Hs), Ha.
  by destruct s.
Qed.

Lemma rstrip_decompose s : ∃ k, s = Str.rstrip c s ++ Str.rep c k.
Proof.
  induction s as [|a s [k IH]]; [by exists 0%nat|]. simpl.
  destruct (Str.rstrip c s) as [|y t] eqn:E.
  - rewrite str_app_nil_l in IH. destruct (Ascii.eqb a c) eqn:Ha.
    + apply Ascii.eqb_eq in Ha as ->. exists (S k). by rewrite str_app_nil_l, IH.
    + exists k. by rewrite str_app_cons, str_app_nil_l, <- IH.
  - exists k. by rewrite str_app_cons, <- IH.
Qed.

Lemma rstrip_no_trailing s t : Str.rstrip c s ≠ t ++ String c "".
Proof.
  revert t. induction s as [|a s IH]; intros t; simpl; [by destruct t|].
  destruct (Str.rstrip c s) as [|y u] eqn:E.
  - destruct (Ascii.eqb a c) eqn:Ha; [by destruct t|].
    destruct t as [|x t]; rewrite ?str_app_cons, ?str_app_nil_l.
    + intros [= ->]. by rewrite Ascii.eqb_refl in Ha.
    + intros [= _ H]. by destruct t.
  - destruct t as [|x t]; rewrite ?str_app_cons, ?str_app_nil_l; [done|].
    intros [= _ H]. by apply (IH t).
Qed.

End Strings.

Lemma neg_index_1_last {A} (l : list A) : neg_index l 1 = last l.
Proof.
  unfold neg_index. rewrite last_lookup.
  destruct l as [|x l]; [done|]. simpl length.
  replace (1 <=? S (length l))%nat with true by (symmetry; apply Nat.leb_le; lia).
  f_equal. lia.
Qed.

Lemma neg_index_None_2 {A} (l : list A) : neg_index l 2 = None ↔ (length l < 2)%nat.
Proof.
  unfold neg_index. destruct (2 <=? length l)%nat eqn:E.
  - apply Nat.leb_le in E. split; [|lia]. intros H.
    apply lookup_ge_None in H. lia.
  - apply Nat.leb_gt in E. done.
Qed.

Lemma neg_index_elem_of {A} (l : list A) k x : neg_index l k = Some x → x ∈ l.
Proof.
  unfold neg_index. destruct (k <=? length l)%nat; [|done].
  apply list_elem_of_lookup_2.
Qed.

Lemma neg_index_app_2 {A} (l : list A) x y :
  neg_index (l ++ [x; y]) 2 = Some x ∧ neg_index (l ++ [x; y]) 1 = Some y.
Proof.
  unfold neg_index. rewrite length_app. simpl length.
  replace (2 <=? length l + 2)%nat with true by (symmetry; apply Nat.leb_le; lia).
  replace (1 <=? length l + 2)%nat with true by (symmetry; apply Nat.leb_le; lia).
  split.
  - rewrite lookup_app_r by lia. by replace (length l + 2 - 2 - length l)%nat with 0%nat by lia.
  - rewrite lookup_app_r by lia. by replace (length l + 2 - 1 - length l)%nat with 1%nat by lia.
Qed.

(** X1.  A URL made of anything, then "/", an owner, "/", a repository name
    and any number of trailing slashes is parsed back to that owner and that
    name, as long as neither holds a slash and the name is not empty. *)
Theorem parse_repo_url_roundtrip (prefix owner repo : string) (k : nat) :
  Str.has "/" owner = false →
  Str.has "/" repo = false →
  repo ≠ "" →
  GitHubAPI.parse_repo_url (prefix ++ "/" ++ owner ++ "/" ++ repo ++ Str.rep "/" k)
  = Some (owner, repo).
Proof.
  intros Ho Hr Hne. unfold GitHubAPI.parse_repo_url.
  assert (Str.rstrip "/" (prefix ++ "/" ++ owner ++ "/" ++ repo ++ Str.rep "/" k)
          = prefix ++ String "/" (owner ++ String "/" repo)) as ->.
  { replace (prefix ++ "/" ++ owner ++ "/" ++ repo ++ Str.rep "/" k)
      with ((prefix ++ String "/" (owner ++ String "/" "")) ++ repo ++ Str.rep "/" k).
    2:{ rewrite !str_app_assoc, !str_app_cons, !str_app_nil_l, !str_app_assoc. by rewrite !str_app_cons, !str_app_nil_l. }
    rewrite rstrip_app, (rstrip_app _ repo), rstrip_rep, (rstrip_without _ _ Hr).
    destruct repo as [|a r]; [done|].
    rewrite !str_app_assoc, !str_app_cons, !str_app_assoc. by rewrite !str_app_cons, !str_app_nil_l. }
  rewrite !split_app, (split_without _ _ Ho), (split_without _ _ Hr).
  destruct (neg_index_app_2 (Str.split "/" prefix) owner repo) as [H2 H1].
  simpl app in *. by rewrite H2, H1.
Qed.

(** X2.  What [parse_repo_url] returns never holds a slash, and the
    repository name is never empty (the owner may be). *)
Theorem parse_repo_url_parts (repo_url owner repo : string) :
  GitHubAPI.parse_repo_url repo_url = Some (owner, repo) →
  Str.has "/" owner = false ∧ Str.has "/" repo = false ∧ repo ≠ "".
Proof.
  unfold GitHubAPI.parse_repo_url.
  destruct (neg_index _ 2) as [o|] eqn:H2; [|done].
  destruct (neg_index _ 1) as [r|] eqn:H1; [|done].
  intros [= -> ->].
  pose proof (split_parts_without "/" (Str.rstrip "/" repo_url)) as Hparts.
  rewrite Forall_forall in Hparts.
  split; [by eapply Hparts, neg_index_elem_of|].
  split; [by eapply Hparts, neg_index_elem_of|].
  intros ->. rewrite neg_index_1_last in H1.
  apply split_last_empty in H1 as [Hempty|[t Ht]].
  - by rewrite Hempty in H2.
  - by apply rstrip_no_trailing in Ht.
Qed.

(** X3.  [parse_repo_url] gives up exactly on the URLs whose only slashes
    are trailing ones. *)
Theorem parse_repo_url_None (repo_url : string) :
  GitHubAPI.parse_repo_url repo_url = None
  ↔ ∃ s k, repo_url = s ++ Str.rep "/" k ∧ Str.has "/" s = false.
Proof.
  unfold GitHubAPI.parse_repo_url. split.
  - intros H.
    assert (neg_index (Str.split "/" (Str.rstrip "/" repo_url)) 2 = None) as H2.
    { destruct (neg_index _ 2) as [o|]; [|done].
      rewrite neg_index_1_last in H.
      destruct (last _) eqn:E; [done|]. apply last_None in E.
      by apply split_nonempty in E. }
    apply neg_index_None_2 in H2.
    destruct (rstrip_decompose "/" repo_url) as [k Hk].
    exists (Str.rstrip "/" repo_url), k. split; [done|].
    apply split_one_part.
    pose proof (split_nonempty "/" (Str.rstrip "/" repo_url)).
    destruct (Str.split _ _); [done|]. simpl in *. lia.
  - intros (s & k & -> & Hs).
    rewrite rstrip_app, rstrip_rep, (rstrip_without _ _ Hs), (split_without _ _ Hs).
    done.
Qed.

Lemma dict_get_Some v k dflt x :
  dict_get v k dflt = Some x →
  ∃ d, v = PDict d ∧ x = match assoc k d with Some y => y | None => dflt end.
Proof. destruct v; try done. intros [= <-]. eauto. Qed.

Lemma metadata_of_dict d :
  let lic := match assoc "license" d with Some y => y | None => PNone end in
  GitHubAPI.metadata_of (PDict d)
  = (license ← (if truthy lic then dict_get lic "name" PNone
                else Some (PStr "No License"));
     Some [("name", default PNone (assoc "name" d));
           ("description", default PNone (assoc "description" d));
           ("stars", default PNone (assoc "stargazers_count" d));
           ("forks", default PNone (assoc "forks_count" d));
           ("open_issues", default PNone (assoc "open_issues_count" d));
           ("created_at", default PNone (assoc "created_at" d));
           ("updated_at", default PNone (assoc "updated_at" d));
           ("language", default PNone (assoc "language" d));
           ("size", default PNone (assoc "size" d));
           ("watchers", default PNone (assoc "watchers_count" d));
           ("default_branch", default PNone (assoc "default_branch" d));
           ("license", license);
           ("topics", default (PList []) (assoc "topics" d))]).
Proof.
  unfold GitHubAPI.metadata_of. simpl.
  destruct (assoc "license" d) as [lic|]; simpl; [|done].
  destruct (truthy lic); simpl; [|done].
  by destruct (dict_get lic "name" PNone).
Qed.

(** X7.  The metadata dict cannot be built exactly when the body is no
    JSON object, or when its license is a truthy value that is no object (a
    bare string, say); a missing, null or empty license is fine. *)
Theorem metadata_of_None (data : pyval) :
  GitHubAPI.metadata_of data = None
  ↔ (∀ d, data ≠ PDict d)
    ∨ ∃ d lic, data = PDict d ∧ assoc "license" d = Some lic
               ∧ truthy lic = true ∧ ∀ l, lic ≠ PDict l.
Proof.
  destruct data as [| | | | |d]; try by (split; [left|]).
  rewrite metadata_of_dict. simpl. split.
  - intros H. right. destruct (assoc "license" d) as [lic|] eqn:E; [|done].
    exists d, lic. destruct (truthy lic) eqn:T; [|done].
    repeat split; try done. intros l ->. done.
  - intros [H|(d' & lic & [= <-] & -> & -> & Hl)]; [by destruct (H d)|].
    destruct lic; try done. by destruct (Hl d0).
Qed.

Lemma metadata_of_Some data m :
  GitHubAPI.metadata_of data = Some m →
  ∃ d, data = PDict d
       ∧ map fst m = GitHubAPI.metadata_keys
       ∧ assoc "license" m
         = Some (match assoc "license" d with
                 | Some (PDict ((_ :: _) as l)) => default PNone (assoc "name" l)
                 | _ => PStr "No License"
                 end)
       ∧ assoc "stars" m = Some (default PNone (assoc "stargazers_count" d))
       ∧ assoc "topics" m = Some (default (PList []) (assoc "topics" d)).
Proof.
  destruct data as [| | | | |d]; try done.
  rewrite metadata_of_dict. simpl. intros H. exists d. split; [done|].
  destruct (assoc "license" d) as [lic|]; simpl in H.
  - destruct (truthy lic) eqn:T; simpl in H.
    + destruct lic as [| | | | |l]; try done. simpl in H. injection H as <-.
      destruct l as [|kv l]; [done|]. by repeat split.
    + injection H as <-. by destruct lic as [| | | | |[|]].
  - by injection H as <-.
Qed.

Section RequestFacts.

Variable datetime : Type.
Variable strptime : string → option datetime.
Variable requests_get : list string → string → option http_response.

Local Abbreviation fetch_repo_metadata := (GitHubAPI.fetch_repo_metadata requests_get).
Local Abbreviation fetch_contributors := (GitHubAPI.fetch_contributors requests_get).
Local Abbreviation fetch_commit_activity' :=
  (GitHubAPI.fetch_commit_activity datetime strptime requests_get).

(** X4.  When the URL gives no owner and repository, or an empty owner, the
    three fetches return [None] without making any request. *)
Theorem fetch_without_request (repo_url : string) (log : list string) :
  GitHubAPI.parse_repo_url repo_url = None
  ∨ (∃ repo, GitHubAPI.parse_repo_url repo_url = Some ("", repo)) →
  fetch_repo_metadata repo_url log = (None, log)
  ∧ fetch_contributors repo_url log = (None, log)
  ∧ fetch_commit_activity' repo_url log = (None, log).
Proof.
  unfold GitHubAPI.fetch_repo_metadata, GitHubAPI.fetch_contributors,
    GitHubAPI.fetch_commit_activity.
  by intros [->|[repo ->]].
Qed.

Lemma guard_passes owner repo (url : string) :
  GitHubAPI.parse_repo_url url = Some (owner, repo) → owner ≠ "" →
  String.eqb owner "" || String.eqb repo "" = false.
Proof.
  intros Hp Ho. apply parse_repo_url_parts in Hp as (_ & _ & Hr).
  apply orb_false_iff. split; by apply String.eqb_neq.
Qed.

(** X5.  [fetch_commit_activity] asks for the weekly statistics and then,
    whatever the first status was, for the commits; only a failing first
    request saves the second.  A dataset comes back only if both answers had
    status 200. *)
Theorem fetch_commit_activity_requests (repo_url owner repo : string) (log : list string) :
  GitHubAPI.parse_repo_url repo_url = Some (owner, repo) →
  owner ≠ "" →
  let first := repos_url owner repo ++ "/stats/commit_activity" in
  let second := repos_url owner repo ++ "/commits" in
  snd (fetch_commit_activity' repo_url log)
  = (log ++ first :: match requests_get log first with
                     | Some _ => [second]
                     | None => []
                     end)%list
  ∧ (∀ d, fst (fetch_commit_activity' repo_url log) = Some d →
       ∃ a c, requests_get log first = Some a ∧ status a = 200%Z
              ∧ requests_get (log ++ [first])%list second = Some c ∧ status c = 200%Z).
Proof.
  intros Hp Ho first second. unfold GitHubAPI.fetch_commit_activity.
  rewrite Hp, (guard_passes _ _ _ Hp Ho). unfold GitHubAPI.get.
  assert (GitHubAPI.GITHUB_API_BASE ++ "/repos/" ++ owner ++ "/" ++ repo
            ++ "/stats/commit_activity" = first) as ->.
  { unfold first, repos_url. by rewrite !str_app_assoc. }
  assert (GitHubAPI.GITHUB_API_BASE ++ "/repos/" ++ owner ++ "/" ++ repo
            ++ "/commits" = second) as ->.
  { unfold second, repos_url. by rewrite !str_app_assoc. }
  destruct (requests_get log first) as [a|]; simpl; [|by split].
  destruct (requests_get (log ++ [first])%list second) as [c|]; simpl.
  - split; [by rewrite <- (assoc_L (++))|]. intros d Hd.
    destruct (iter (body a)) as [ws|]; [|done].
    destruct (iter (body c)) as [cs|]; [|done].
    unfold fetch_commit_activity in Hd. simpl in Hd.
    destruct (status a =? 200)%Z eqn:Ea; [|done].
    destruct (status c =? 200)%Z eqn:Ec; [|done].
    apply Z.eqb_eq in Ea, Ec. eauto 10.
  - split; [by rewrite <- (assoc_L (++))|]. done.
Qed.

(** X6.  Metadata returned by [fetch_repo_metadata] come from one request
    answered with status 200 and a JSON object; they have the thirteen keys
    in their fixed order, and the license entry is the name of the license
    object, or "No License" when the repository has none. *)
Theorem fetch_repo_metadata_Some (repo_url : string) (log log' : list string) m :
  fetch_repo_metadata repo_url log = (Some m, log') →
  ∃ owner repo d,
    GitHubAPI.parse_repo_url repo_url = Some (owner, repo)
    ∧ log' = (log ++ [repos_url owner repo])%list
    ∧ requests_get log (repos_url owner repo) = Some {| status := 200; body := PDict d |}
    ∧ map fst m = GitHubAPI.metadata_keys
    ∧ assoc "license" m
      = Some (match assoc "license" d with
              | Some (PDict ((_ :: _) as l)) => default PNone (assoc "name" l)
              | _ => PStr "No License"
              end).
Proof.
  unfold GitHubAPI.fetch_repo_metadata.
  destruct (GitHubAPI.parse_repo_url repo_url) as [[owner repo]|] eqn:Hp; [|done].
  destruct (_ || _); [done|]. unfold GitHubAPI.get. fold (repos_url owner repo).
  destruct (requests_get log (repos_url owner repo)) as [[st bd]|] eqn:Hr; [|done].
  simpl. destruct (st =? 200)%Z eqn:E; [|done]. apply Z.eqb_eq in E as ->.
  intros [= Hm <-]. apply metadata_of_Some in Hm as (d & -> & Hk & Hl & _).
  by exists owner, repo, d.
Qed.

End RequestFacts.

Lemma traverse_length {A B} (f : A → result B) l ys :
  traverse f l = OK ys → length ys = length l.
Proof. intros H. apply traverse_OK_Forall2 in H. symmetry. by eapply Forall2_length. Qed.

Section AnalyzerSteps.

Variable datetime : Type.
Variable strptime : string → option datetime.
Variable requests_get : list string → string → option http_response.

Local Abbreviation fetch_repo_metadata := (GitHubAPI.fetch_repo_metadata requests_get).
Local Abbreviation fetch_contributors := (GitHubAPI.fetch_contributors requests_get).
Local Abbreviation fetch_commit_activity' :=
  (GitHubAPI.fetch_commit_activity datetime strptime requests_get).
Local Abbreviation analyze_repository :=
  (analyze_repository datetime strptime requests_get).

(** Statistics on what the normalizer returns: the only failure left is the
    empty series. *)
Lemma statistics_after_fetch ar cr (d : activity datetime) :
  fetch_commit_activity datetime strptime ar cr = Some d →
  (activity_by_week d = [] ∧ calculate_statistics datetime d = Raise ValueError)
  ∨ (activity_by_week d ≠ [] ∧ ∃ s, calculate_statistics datetime d = OK s).
Proof.
  intros H. destruct (fetch_totals_numeric _ _ _ _ _ H) as (totals & Ht & _).
  destruct (activity_by_week d) as [|w ws] eqn:E.
  - left. split; [done|]. unfold calculate_statistics, weekly_totals_of. by rewrite E.
  - right. split; [done|].
    destruct (calculate_statistics_nonempty _ d totals Ht) as (hi & lo & fin & _ & _ & _ & Hs).
    + intros ->. unfold weekly_totals_of in Ht. rewrite E in Ht.
      apply bind_OK in Ht as (raw & Hraw & Harr).
      apply traverse_length in Hraw, Harr. simpl in *. lia.
    + eauto.
Qed.

Lemma fetch_repo_metadata_log url log :
  ∃ ex, snd (fetch_repo_metadata url log) = (log ++ ex)%list
        ∧ (length ex ≤ 1)%nat
        ∧ (is_Some (fst (fetch_repo_metadata url log)) → length ex = 1%nat).
Proof.
  unfold GitHubAPI.fetch_repo_metadata, GitHubAPI.get.
  destruct (GitHubAPI.parse_repo_url url) as [[o r]|];
    [|exists []; rewrite app_nil_r; simpl; repeat split; [lia | by intros [? [=]]]].
  destruct (_ || _); [exists []; rewrite app_nil_r; simpl; repeat split; [lia | by intros [? [=]]]|].
  eexists [_]. destruct (requests_get _ _) as [resp|]; [destruct (_ =? _)%Z|]; simpl; repeat split; lia.
Qed.

Lemma fetch_contributors_log url log :
  ∃ ex, snd (fetch_contributors url log) = (log ++ ex)%list
        ∧ (length ex ≤ 1)%nat
        ∧ (is_Some (fst (fetch_contributors url log)) → length ex = 1%nat).
Proof.
  unfold GitHubAPI.fetch_contributors, GitHubAPI.get.
  destruct (GitHubAPI.parse_repo_url url) as [[o r]|];
    [|exists []; rewrite app_nil_r; simpl; repeat split; [lia | by intros [? [=]]]].
  destruct (_ || _); [exists []; rewrite app_nil_r; simpl; repeat split; [lia | by intros [? [=]]]|].
  eexists [_]. destruct (requests_get _ _) as [resp|]; [destruct (_ =? _)%Z|]; simpl; repeat split; lia.
Qed.

Lemma fetch_commit_activity_log url log :
  ∃ ex, snd (fetch_commit_activity' url log) = (log ++ ex)%list
        ∧ (length ex ≤ 2)%nat
        ∧ (is_Some (fst (fetch_commit_activity' url log)) → length ex = 2%nat).
Proof.
  unfold GitHubAPI.fetch_commit_activity, GitHubAPI.get.
  destruct (GitHubAPI.parse_repo_url url) as [[o r]|];
    [|exists []; rewrite app_nil_r; simpl; repeat split; [lia | by intros [? [=]]]].
  destruct (_ || _); [exists []; rewrite app_nil_r; simpl; repeat split; [lia | by intros [? [=]]]|].
  destruct (requests_get log _) as [a|];
    [|eexists [_]; simpl; repeat split; [lia | by intros [? [=]]]].
  eexists [_; _]. rewrite <- (assoc_L (++)). simpl.
  destruct (requests_get _ _) as [c|]; simpl; repeat split; lia.
Qed.

Lemma fetch_commit_activity_normalized url log d :
  fst (fetch_commit_activity' url log) = Some d →
  ∃ ar cr, fetch_commit_activity datetime strptime ar cr = Some d.
Proof.
  unfold GitHubAPI.fetch_commit_activity, GitHubAPI.get.
  destruct (GitHubAPI.parse_repo_url url) as [[o r]|]; [|done].
  destruct (_ || _); [done|].
  destruct (requests_get log _) as [a|]; [|done].
  destruct (requests_get _ _) as [c|]; [|done]. simpl.
  destruct (iter (body a)); [|done]. destruct (iter (body c)); [|done]. eauto.
Qed.

(** The run of [analyze_repository], step by step. *)
Lemma analyze_cases url st log :
  let '(m, log1) := fetch_repo_metadata url log in
  let '(c, log2) := fetch_contributors url log1 in
  let '(a, log3) := fetch_commit_activity' url log2 in
  (url = "" ∧ analyze_repository url st log = ((OK false, st), log))
  ∨ (m = None ∧ analyze_repository url st log = ((OK false, st), log1))
  ∨ (is_Some m ∧ (c = None ∨ ∃ v, c = Some v ∧ truthy v = false)
     ∧ analyze_repository url st log = ((OK false, st), log2))
  ∨ (is_Some m ∧ (∃ v, c = Some v ∧ truthy v = true) ∧ a = None
     ∧ analyze_repository url st log = ((OK false, st), log3))
  ∨ (∃ md v d, m = Some md ∧ c = Some v ∧ truthy v = true ∧ a = Some d
       ∧ map fst md = GitHubAPI.metadata_keys
       ∧ ((activity_by_week d = []
           ∧ analyze_repository url st log = ((Raise ValueError, st), log3))
          ∨ (activity_by_week d ≠ []
             ∧ ∃ s, calculate_statistics datetime d = OK s
                    ∧ analyze_repository url st log
                      = ((OK true, Some {| res_metadata := md; res_contributors := v;
                                           res_commit_activity := d;
                                           res_statistics := s |}), log3)))).
Proof.
  destruct (fetch_repo_metadata url log) as [m log1] eqn:Hm.
  destruct (fetch_contributors url log1) as [c log2] eqn:Hc.
  destruct (fetch_commit_activity' url log2) as [a log3] eqn:Ha.
  unfold analyze_repository.
  destruct (String.eqb url "") eqn:Hu; [left; by apply String.eqb_eq in Hu|].
  right. rewrite Hm.
  destruct m as [md|]; [|by left]. right.
  pose proof Hm as Hkeys. apply fetch_repo_metadata_Some in Hkeys
    as (o & r & dd & _ & _ & _ & Hkeys & _).
  destruct md as [|kv md]; [done|]. rewrite Hc.
  destruct c as [v|]; [|left; eauto].
  destruct (truthy v) eqn:Tv; [|left; eauto 6]. right. rewrite Ha.
  destruct a as [d|]; [|left; eauto 6]. right.
  exists (kv :: md), v, d. repeat split; try done.
  assert (fst (fetch_commit_activity' url log2) = Some d) as Hd by (by rewrite Ha).
  apply fetch_commit_activity_normalized in Hd as (ar & cr & Hd).
  destruct (statistics_after_fetch _ _ _ Hd) as [[He Hs]|[He [s Hs]]]; rewrite Hs.
  - by left.
  - right. eauto.
Qed.

End AnalyzerSteps.

Section AnalyzerFacts.

Variable datetime : Type.
Variable strptime : string → option datetime.
Variable requests_get : list string → string → option http_response.

Local Abbreviation fetch_repo_metadata := (GitHubAPI.fetch_repo_metadata requests_get).
Local Abbreviation fetch_contributors := (GitHubAPI.fetch_contributors requests_get).
Local Abbreviation fetch_commit_activity' :=
  (GitHubAPI.fetch_commit_activity datetime strptime requests_get).
Local Abbreviation analyze_repository :=
  (analyze_repository datetime strptime requests_get).

Lemma analyze_log url st log :
  ∃ ex, snd (analyze_repository url st log) = (log ++ ex)%list
        ∧ (length ex ≤ 4)%nat
        ∧ (fst (fst (analyze_repository url st log)) ≠ OK false → length ex = 4%nat).
Proof.
  pose proof (analyze_cases datetime strptime requests_get url st log) as H.
  destruct (fetch_repo_metadata_log requests_get url log) as (e1 & H1 & L1 & S1).
  destruct (fetch_repo_metadata url log) as [m log1].
  destruct (fetch_contributors_log requests_get url log1) as (e2 & H2 & L2 & S2).
  destruct (fetch_contributors url log1) as [c log2].
  destruct (fetch_commit_activity_log datetime strptime requests_get url log2)
    as (e3 & H3 & L3 & S3).
  destruct (fetch_commit_activity' url log2) as [a log3].
  simpl in *. subst.
  destruct H as [[_ ->]|[[_ ->]|[(_ & _ & ->)|[(_ & _ & _ & ->)|H]]]]; simpl.
  - exists []. rewrite app_nil_r. simpl. repeat split; [lia|done].
  - exists e1. repeat split; [lia|done].
  - exists (e1 ++ e2)%list. rewrite (assoc_L (++)), length_app.
    repeat split; [lia|done].
  - exists (e1 ++ e2 ++ e3)%list. rewrite !(assoc_L (++)), !length_app.
    repeat split; [lia|done].
  - destruct H as (md & v & d & -> & -> & _ & -> & _ & H).
    exists (e1 ++ e2 ++ e3)%list. rewrite !(assoc_L (++)), !length_app.
    rewrite S1, S2, S3 by eauto.
    destruct H as [[_ ->]|[_ (s & _ & ->)]]; simpl; repeat split; lia.
Qed.

(** X8.  When [analyze_repository] returns [True], the stored results hold
    the thirteen metadata keys, a non-empty contributors value, a dataset
    with at least one weekly record, and the statistics of that very
    dataset; exactly four requests were made. *)
Theorem analyze_success url st log st' log' :
  analyze_repository url st log = ((OK true, st'), log') →
  ∃ a, st' = Some a
       ∧ map fst (res_metadata a) = GitHubAPI.metadata_keys
       ∧ truthy (res_contributors a) = true
       ∧ activity_by_week (res_commit_activity a) ≠ []
       ∧ calculate_statistics datetime (res_commit_activity a) = OK (res_statistics a)
       ∧ total_commits (res_commit_activity a) = Total_Commits (res_statistics a)
       ∧ length log' = (length log + 4)%nat.
Proof.
  intros Hrun.
  destruct (analyze_log url st log) as (ex & Hlog & _ & Hfour).
  rewrite Hrun in Hlog, Hfour. simpl in *.
  pose proof (analyze_cases datetime strptime requests_get url st log) as H.
  destruct (fetch_repo_metadata url log) as [m log1].
  destruct (fetch_contributors url log1) as [c log2].
  destruct (fetch_commit_activity' url log2) as [a log3].
  rewrite Hrun in H.
  destruct H as [[_ [=]]|[[_ [=]]|[(_ & _ & [=])|[(_ & _ & _ & [=])|H]]]].
  destruct H as (md & v & d & _ & _ & Tv & _ & Hk & [[_ [=]]|[Hne (s & Hs & [= -> ->])]]).
  eexists. split; [reflexivity|]. simpl. repeat split; try done.
  - unfold calculate_statistics in Hs.
    apply bind_OK in Hs as (? & _ & Hs). apply bind_OK in Hs as (? & _ & Hs).
    apply bind_OK in Hs as (? & _ & Hs). apply bind_OK in Hs as (? & _ & Hs).
    by injection Hs as <-.
  - subst. rewrite length_app, Hfour; [lia|done].
Qed.

(** X9.  A run that does not return [True] leaves [analysis_results] as it
    was; it only adds requests to the log, four at most. *)
Theorem analyze_keeps_results url st log r st' log' :
  analyze_repository url st log = ((r, st'), log') →
  r ≠ OK true →
  st' = st ∧ ∃ ex, log' = (log ++ ex)%list ∧ (length ex ≤ 4)%nat.
Proof.
  intros Hrun Hr.
  destruct (analyze_log url st log) as (ex & Hlog & Hle & _).
  rewrite Hrun in Hlog. simpl in Hlog. split; [|eauto].
  pose proof (analyze_cases datetime strptime requests_get url st log) as H.
  destruct (fetch_repo_metadata url log) as [m log1].
  destruct (fetch_contributors url log1) as [c log2].
  destruct (fetch_commit_activity' url log2) as [a log3].
  rewrite Hrun in H.
  destruct H as [[_ [=]]|[[_ [=]]|[(_ & _ & [=])|[(_ & _ & _ & [=])|H]]]]; try done.
  destruct H as (md & v & d & _ & _ & _ & _ & _ & [[_ [=]]|[_ (s & _ & [=])]]); [done|].
  by subst.
Qed.


Lemma analyze_falsy_contributors url st log m log1 v log2 :
  url ≠ "" →
  fetch_repo_metadata url log = (Some m, log1) →
  fetch_contributors url log1 = (Some v, log2) →
  truthy v = false →
  analyze_repository url st log = ((OK false, st), log2).
Proof.
  intros Hu Hm Hc Hv.
  pose proof (analyze_cases datetime strptime requests_get url st log) as H.
  rewrite Hm, Hc in H.
  destruct (fetch_commit_activity' url log2) as [a log3].
  destruct H as [[? _]|[[[=] _]|[(_ & _ & H)|[(_ & (w & [= <-] & Hw) & _)|H]]]];
    try done; [congruence|].
  destruct H as (? & w & ? & _ & [= <-] & Hw & _). congruence.
Qed.

(** X11.  A repository whose contributors endpoint answers with an empty
    list (or any other falsy body) is not analysed: after the metadata and
    the contributors requests the run returns [False], asks for no commit
    data and leaves [analysis_results] as it was. *)
Theorem analyze_without_contributors url owner repo st log d v :
  GitHubAPI.parse_repo_url url = Some (owner, repo) →
  owner ≠ "" →
  requests_get log (repos_url owner repo)
  = Some {| status := 200; body := PDict d |} →
  is_Some (GitHubAPI.metadata_of (PDict d)) →
  requests_get (log ++ [repos_url owner repo])%list
               (repos_url owner repo ++ "/contributors")
  = Some {| status := 200; body := v |} →
  truthy v = false →
  analyze_repository url st log
  = ((OK false, st),
     (log ++ [repos_url owner repo;
              (repos_url owner repo ++ "/contributors")%string])%list).
Proof.
  intros Hp Ho Hmeta [m Hm] Hcontrib Hv.
  assert (url ≠ "") as Hu by (by intros ->).
  apply (analyze_falsy_contributors url st log m (log ++ [repos_url owner repo])%list v);
    try done.
  - unfold GitHubAPI.fetch_repo_metadata, GitHubAPI.get.
    rewrite Hp, (guard_passes _ _ _ Hp Ho). fold (repos_url owner repo).
    rewrite Hmeta. cbn [status body]. by rewrite Z.eqb_refl, Hm.
  - unfold GitHubAPI.fetch_contributors, GitHubAPI.get.
    rewrite Hp, (guard_passes _ _ _ Hp Ho).
    replace (GitHubAPI.GITHUB_API_BASE ++ "/repos/" ++ owner ++ "/" ++ repo
             ++ "/contributors") with (repos_url owner repo ++ "/contributors")
      by (unfold repos_url; by rewrite !str_app_assoc).
    rewrite Hcontrib. cbn [status body]. by rewrite Z.eqb_refl, <- (assoc_L (++)).
Qed.

End AnalyzerFacts.

Section Numbers.

Local Open Scope Q_scope.












End Numbers.




Section Extremes.

Variable datetime : Type.

Local Abbreviation weekly_totals_of := (weekly_totals_of datetime).
Local Abbreviation calculate_statistics := (calculate_statistics datetime).


End Extremes.



Lemma length_build_commit_history {datetime} strptime (l : list pyval) :
  (length (build_commit_history datetime strptime l) ≤ length l)%nat.
Proof.
  induction l as [|c l IH]; simpl; [lia|].
  destruct (parse_commit datetime strptime c); simpl; lia.
Qed.

Section Trend.

Variable datetime : Type.
Variable strptime : string → option datetime.

Local Abbreviation weekly_totals_of := (weekly_totals_of datetime).
Local Abbreviation calculate_statistics := (calculate_statistics datetime).





(** X17.  A returned dataset holds the weekly array unchanged, every weekly
    total is a number and [weekly_commits] is their sum, and there are never
    more stored commit entries than [total_commits]. *)
Theorem fetched_dataset_invariants (activity_response commits_response : response)
    (d : activity datetime) :
  fetch_commit_activity datetime strptime activity_response commits_response = Some d →
  activity_by_week d = json activity_response
  ∧ (∃ totals, Forall2 (fun w x => week_total w = Some x) (json activity_response) totals
               ∧ weekly_commits d = Np.Zsum totals)
  ∧ (length (commit_history d) ≤ total_commits d)%nat
  ∧ total_commits d = length (json commits_response).
Proof.
  unfold fetch_commit_activity. destruct (_ && _); [|done].
  destruct (process_commit_activity _ _ _ _) as [d'|] eqn:Hp; [|done].
  intros [= <-]. apply process_totals in Hp as (totals & Hw & Hsum & Hweeks & Hh & Hn).
  split; [done|]. split; [eauto|]. split; [|done].
  rewrite Hh, Hn. apply length_build_commit_history.
Qed.

End Trend.









Section Order.

Variable datetime : Type.

Local Abbreviation weekly_totals_of := (weekly_totals_of datetime).
Local Abbreviation calculate_statistics := (calculate_statistics datetime).


End Order.

Lemma length_str_append (a b : string) :
  String.length (a ++ b) = (String.length a + String.length b)%nat.
Proof. induction a as [|x a IH]; [done|]. rewrite str_app_cons. simpl. by rewrite IH. Qed.

Lemma export_message_OK_str v m :
  export_message v = OK (PStr m) →
  ∃ m0, v = PStr m0 ∧ (String.length m ≤ 103)%nat
        ∧ (String.length m ≤ String.length m0 + 3)%nat.
Proof.
  destruct v as [| | |m0|l|d]; try done.
  - rewrite export_message_str. intros [= <-]. exists m0. split; [done|].
    destruct (100 <? String.length m0)%nat eqn:E.
    + rewrite length_str_append, length_str_take.
      change (String.length "...") with 3%nat. lia.
    + apply Nat.ltb_ge in E. lia.
  - unfold export_message. simpl. by destruct (100 <? length l)%nat.
  - unfold export_message. simpl. by destruct (100 <? length d)%nat.
Qed.

Lemma for_each_raises {A} (body : A → io export_row) (l : list A) j x :
  l !! j = Some x →
  (∀ t, ∃ e, body x t = Raise e) →
  ∀ t, ∃ e, for_each body l t = Raise e.
Proof.
  revert j. induction l as [|y l IH]; intros j Hj Hx t; [done|].
  simpl. unfold io_bind. destruct j as [|j]; simpl in Hj.
  - injection Hj as ->. destruct (Hx t) as [e ->]. eauto.
  - destruct (body y t) as [[r t1]|e]; [|eauto].
    destruct (IH j Hj Hx t1) as [e ->]. eauto.
Qed.

Section ExportMore.

Variable datetime : Type.
Variable py_str : pyval → string.
Variable strftime : datetime → string.
Variable clock : nat → datetime.

Local Abbreviation prepare_dataframe_for_export :=
  (prepare_dataframe_for_export datetime py_str strftime clock).

(** X18.  No exported commit message is longer than 103 characters. *)
Theorem exported_message_length metadata contributors (d : activity datetime) rows :
  prepare_dataframe_for_export metadata contributors d = OK rows →
  ∀ r m, r ∈ rows → Category r = "Commits" → Value r = PStr m →
         (String.length m ≤ 103)%nat.
Proof.
  intros H r m Hr Hcat Hval.
  apply export_sections in H as (ms & cs & hs & -> & _ & _ & _ & Hm & Hc & Hh).
  rewrite !elem_of_app in Hr. destruct Hr as [Hr|[Hr|Hr]];
    apply list_elem_of_lookup in Hr as [i Hr].
  - apply Hm in Hr as (? & _ & ->). discriminate Hcat.
  - apply Hc in Hr as (? & _ & _ & Hcat' & _). rewrite Hcat' in Hcat. discriminate Hcat.
  - apply Hh in Hr as (c & _ & _ & _ & _ & Hv & _). rewrite Hval in Hv.
    by apply export_message_OK_str in Hv as (? & _ & ? & _).
Qed.

(** X19.  One contributor among the first ten without a login or without
    a contribution count makes the whole export raise: no partial table is
    returned. *)
Theorem export_aborts_on_contributor metadata contributors (d : activity datetime) j c :
  (j < 10)%nat →
  contributors !! j = Some c →
  field "login" c = None ∨ field "contributions" c = None →
  ∃ e, prepare_dataframe_for_export metadata contributors d = Raise e.
Proof.
  intros Hj Hc Hbad.
  unfold prepare_dataframe_for_export, export_rows, io_bind.
  destruct (for_each_succeeds (metadata_row datetime py_str strftime clock) metadata)
    with (t := 0%nat) as (ms & t1 & ->).
  { apply Forall_forall. intros item _ t. by eexists _, _. }
  destruct (for_each_raises (contributor_row datetime strftime clock)
              (take 10 contributors) j c) with (t := t1) as [e ->]; [| |eauto].
  - by rewrite lookup_take_lt.
  - intros t. unfold contributor_row, io_bind, lift.
    rewrite !getitem_cases. destruct Hbad as [-> | Hn]; [eauto|].
    destruct (field "login" c); rewrite ?Hn; eauto.
Qed.

End ExportMore.

Section Chart.

Variable datetime : Type.
Variable strptime : string → option datetime.

(** X21.  The trend chart is given the twelve x-values 1..12 and one
    y-value per weekly record of the last twelve; the two series have the
    same length exactly when there are at least twelve weekly records. *)
Theorem recent_trend_series_lengths (activity_response commits_response : response)
    (d : activity datetime) :
  fetch_commit_activity datetime strptime activity_response commits_response = Some d →
  ∃ weeks recent_commits,
    recent_activity_trend_series datetime d = OK (weeks, recent_commits)
    ∧ weeks = [1; 2; 3; 4; 5; 6; 7; 8; 9; 10; 11; 12]%nat
    ∧ length recent_commits = min 12 (length (json activity_response))
    ∧ (length weeks = length recent_commits ↔ (12 ≤ length (json activity_response))%nat).
Proof.
  intros H.
  assert (∃ totals, Forall2 (fun w x => week_total w = Some x) (activity_by_week d) totals
                    ∧ activity_by_week d = json activity_response) as (totals & Hw & Hj).
  { unfold fetch_commit_activity in H. destruct (_ && _); [|done].
    destruct (process_commit_activity _ _ _ _) as [d'|] eqn:Hp; [|done].
    injection H as <-. apply process_totals in Hp as (totals & ? & _ & Hweeks & _).
    exists totals. by rewrite Hweeks. }
  unfold recent_activity_trend_series.
  assert (∃ ys, traverse (fun week => getitem week "total")
                  (drop (length (activity_by_week d) - 12) (activity_by_week d)) = OK ys)
    as [ys Hys].
  { apply Forall2_drop with (n := (length (activity_by_week d) - 12)%nat) in Hw.
    revert Hw. generalize (drop (length (activity_by_week d) - 12) (activity_by_week d)).
    generalize (drop (length (activity_by_week d) - 12) totals).
    intros zs ws Hw. induction Hw as [|w z ws zs Hwz _ [ys IH]]; simpl; [by eexists|].
    unfold week_total in Hwz. destruct (field "total" w) as [v|] eqn:Hv; [|done].
    rewrite (getitem_field _ _ _ Hv), IH. simpl. by eexists. }
  rewrite Hys. unfold bind. eexists _, ys. split; [reflexivity|]. split; [done|].
  apply traverse_length in Hys. rewrite length_drop, Hj in Hys.
  split; [lia|]. simpl length. lia.
Qed.

End Chart.

Section AfterAnalysis.

Variable datetime : Type.
Variable strptime : string → option datetime.
Variable requests_get : list string → string → option http_response.
Variable py_str : pyval → string.
Variable strftime : datetime → string.
Variable clock : nat → datetime.

(** X20.  An export of the results of a successful analysis has between 14
    and 43 rows, and its first 13 rows are the metadata rows, one per key in
    the fixed order. *)
Theorem export_after_analysis url st log (a : analysis datetime) log' cs rows :
  analyze_repository datetime strptime requests_get url st log
  = ((OK true, Some a), log') →
  res_contributors a = PList cs →
  prepare_dataframe_for_export datetime py_str strftime clock
    (res_metadata a) cs (res_commit_activity a) = OK rows →
  (14 ≤ length rows ≤ 43)%nat
  ∧ map Category (take 13 rows) = replicate 13 "Metadata"
  ∧ map Item (take 13 rows) = map PStr GitHubAPI.metadata_keys.
Proof.
  intros Hrun Hcs Hrows.
  pose proof (analyze_cases datetime strptime requests_get url st log) as H.
  destruct (GitHubAPI.fetch_repo_metadata requests_get url log) as [m log1].
  destruct (GitHubAPI.fetch_contributors requests_get url log1) as [c log2].
  destruct (GitHubAPI.fetch_commit_activity datetime strptime requests_get url log2)
    as [act log3].
  rewrite Hrun in H.
  destruct H as [[_ [=]]|[[_ [=]]|[(_ & _ & [=])|[(_ & _ & _ & [=])|H]]]].
  destruct H as (md & v & d & _ & _ & Tv & _ & Hk & [[_ [=]]|[_ (s & _ & [= -> _])]]).
  simpl in Hcs, Hrows. subst v.
  apply export_sections in Hrows as (ms & cs' & hs & -> & Hlm & Hlc & Hlh & Hm & _).
  assert (length md = 13%nat) as H13.
  { rewrite <- (length_map fst), Hk. done. }
  assert (take 13 (ms ++ cs' ++ hs) = ms) as -> by (apply take_app_length'; lia).
  split; [|split].
  - rewrite !length_app. destruct cs as [|x cs]; [done|]. simpl length in Hlc. lia.
  - rewrite <- H13, <- Hlm. apply categories_replicate.
    intros i r Hr. by apply Hm in Hr as (? & _ & ->).
  - rewrite <- Hk. apply list_eq. intros i. rewrite !list_lookup_fmap.
    destruct (ms !! i) as [r|] eqn:Hr; simpl.
    + apply Hm in Hr as (item & -> & ->). done.
    + apply lookup_ge_None in Hr. rewrite Hlm in Hr.
      by rewrite (proj2 (lookup_ge_None md i) Hr).
Qed.

End AfterAnalysis.

(** ** Runs on concrete data *)

Lemma parse_repo_url_roundtrip_witness :
  GitHubAPI.parse_repo_url "https://github.com/microsoft/vscode//"
  = Some ("microsoft", "vscode").
Proof.
  apply (parse_repo_url_roundtrip "https://github.com" "microsoft" "vscode" 2);
    [reflexivity | reflexivity | discriminate].
Defined.

Lemma parse_repo_url_parts_witness :
  Str.has "/" "facebook" = false ∧ Str.has "/" "react" = false ∧ "react" ≠ "".
Proof.
  apply (parse_repo_url_parts "https://github.com/facebook/react"). reflexivity.
Defined.

Lemma fetch_without_request_witness :
  GitHubAPI.fetch_repo_metadata
    (SampleRepo.server SampleRepo.contributors SampleRepo.weeks) "vscode" []
  = (None, [])
  ∧ GitHubAPI.fetch_contributors
      (SampleRepo.server SampleRepo.contributors SampleRepo.weeks) "vscode" []
    = (None, [])
  ∧ GitHubAPI.fetch_commit_activity Sample.stamp Sample.strptime
      (SampleRepo.server SampleRepo.contributors SampleRepo.weeks) "vscode" []
    = (None, []).
Proof. apply fetch_without_request. left. reflexivity. Defined.

Lemma fetch_commit_activity_requests_witness :
  snd (GitHubAPI.fetch_commit_activity Sample.stamp Sample.strptime
         (SampleRepo.server SampleRepo.contributors (PDict [])) SampleRepo.url [])
  = ["https://api.github.com/repos/microsoft/vscode/stats/commit_activity";
     "https://api.github.com/repos/microsoft/vscode/commits"].
Proof.
  destruct (fetch_commit_activity_requests Sample.stamp Sample.strptime
              (SampleRepo.server SampleRepo.contributors (PDict []))
              SampleRepo.url "microsoft" "vscode" []) as [H _].
  - reflexivity.
  - discriminate.
  - exact H.
Defined.

Lemma fetch_repo_metadata_Some_witness :
  ∃ m, fst (GitHubAPI.fetch_repo_metadata
              (SampleRepo.server SampleRepo.contributors SampleRepo.weeks)
              SampleRepo.url []) = Some m
       ∧ map fst m = GitHubAPI.metadata_keys
       ∧ assoc "license" m = Some (PStr "MIT License").
Proof.
  destruct (GitHubAPI.fetch_repo_metadata
              (SampleRepo.server SampleRepo.contributors SampleRepo.weeks)
              SampleRepo.url []) as [[m|] log'] eqn:H; [|discriminate H].
  destruct (fetch_repo_metadata_Some _ _ _ _ _ H)
    as (owner & repo & d & Hp & _ & Hr & Hk & Hl).
  exists m. split; [reflexivity|]. split; [exact Hk|].
  injection Hp as <- <-. vm_compute in Hr. injection Hr as <-. exact Hl.
Defined.

Lemma analyze_success_witness :
  ∃ a log',
    analyze_repository Sample.stamp Sample.strptime
      (SampleRepo.server SampleRepo.contributors SampleRepo.weeks)
      SampleRepo.url None [] = ((OK true, Some a), log')
    ∧ map fst (res_metadata a) = GitHubAPI.metadata_keys
    ∧ Total_Commits (res_statistics a) = 5%nat
    ∧ length log' = 4%nat.
Proof.
  destruct (analyze_repository Sample.stamp Sample.strptime
              (SampleRepo.server SampleRepo.contributors SampleRepo.weeks)
              SampleRepo.url None []) as [[r st'] log'] eqn:H.
  assert (r = OK true) as -> by (vm_compute in H; by injection H as <- _ _).
  destruct (analyze_success _ _ _ _ _ _ _ _ H)
    as (a & -> & Hk & _ & _ & _ & Hn & Hlen).
  exists a, log'. split; [reflexivity|]. split; [exact Hk|]. split; [|exact Hlen].
  rewrite <- Hn. vm_compute in H. by injection H as <- _.
Defined.

Lemma analyze_keeps_results_witness :
  snd (fst (analyze_repository Sample.stamp Sample.strptime
              (SampleRepo.server SampleRepo.contributors SampleRepo.weeks)
              "vscode" None [])) = None.
Proof.
  destruct (analyze_keeps_results Sample.stamp Sample.strptime
              (SampleRepo.server SampleRepo.contributors SampleRepo.weeks)
              "vscode" None [] (OK false) None []) as [H _].
  - reflexivity.
  - discriminate.
  - reflexivity.
Defined.


Lemma analyze_without_contributors_witness :
  analyze_repository Sample.stamp Sample.strptime
    (SampleRepo.server (PList []) SampleRepo.weeks) SampleRepo.url None []
  = ((OK false, None),
     ["https://api.github.com/repos/microsoft/vscode";
      "https://api.github.com/repos/microsoft/vscode/contributors"]).
Proof.
  apply (analyze_without_contributors Sample.stamp Sample.strptime
           (SampleRepo.server (PList []) SampleRepo.weeks)
           SampleRepo.url "microsoft" "vscode" None []
           [("name", PStr "vscode");
            ("stargazers_count", PInt 170000);
            ("license", PDict [("key", PStr "mit"); ("name", PStr "MIT License")]);
            ("topics", PList [PStr "editor"])] (PList [])).
  - reflexivity.
  - discriminate.
  - reflexivity.
  - eexists. reflexivity.
  - reflexivity.
  - reflexivity.
Defined.






Lemma fetched_dataset_invariants_witness :
  ∃ d, fetch_commit_activity Sample.stamp Sample.strptime
         {| status_code := 200; json := [Sample.raw_week 0 3; Sample.raw_week 604800 5] |}
         {| status_code := 200; json := Sample.five_commits |} = Some d
       ∧ (length (commit_history d) ≤ total_commits d)%nat
       ∧ total_commits d = 5%nat.
Proof.
  eexists. split; [reflexivity|].
  destruct (fetched_dataset_invariants Sample.stamp Sample.strptime
              {| status_code := 200;
                 json := [Sample.raw_week 0 3; Sample.raw_week 604800 5] |}
              {| status_code := 200; json := Sample.five_commits |} _ eq_refl)
    as (_ & _ & Hle & Hn).
  split; [exact Hle | exact Hn].
Defined.

Lemma exported_message_length_witness :
  ∃ rows r m,
    prepare_dataframe_for_export Sample.stamp Sample.str Sample.strftime Sample.ticking
      Sample.metadata (Sample.many_contributors 2)
      (Sample.of_history [Sample.entry (Sample.text 150)]) = OK rows
    ∧ rows !! 5%nat = Some r ∧ Value r = PStr m
    ∧ (String.length m ≤ 103)%nat.
Proof.
  destruct (prepare_dataframe_for_export Sample.stamp Sample.str Sample.strftime
              Sample.ticking Sample.metadata (Sample.many_contributors 2)
              (Sample.of_history [Sample.entry (Sample.text 150)]))
    as [rows|] eqn:Hrows; [|discriminate Hrows].
  pose proof (exported_message_length _ _ _ _ _ _ _ _ Hrows) as Hlen.
  vm_compute in Hrows. injection Hrows as <-.
  eexists _, _, _. split; [reflexivity|]. split; [reflexivity|]. split; [reflexivity|].
  eapply Hlen; [apply list_elem_of_lookup; by exists 5%nat | reflexivity | reflexivity].
Defined.

Lemma export_aborts_on_contributor_witness :
  ∃ e, prepare_dataframe_for_export Sample.stamp Sample.str Sample.strftime Sample.ticking
         Sample.metadata
         [Sample.raw_contributor "ada" 3;
          PDict [("login", PStr "ghost"); ("type", PStr "User")]]
         Sample.fetched = Raise e.
Proof.
  apply (export_aborts_on_contributor Sample.stamp Sample.str Sample.strftime
           Sample.ticking Sample.metadata _ Sample.fetched 1
           (PDict [("login", PStr "ghost"); ("type", PStr "User")])).
  - lia.
  - reflexivity.
  - right. reflexivity.
Defined.

Lemma recent_trend_series_lengths_witness :
  ∃ d weeks recent_commits,
    fetch_commit_activity Sample.stamp Sample.strptime
      {| status_code := 200; json := [Sample.raw_week 0 3; Sample.raw_week 604800 5] |}
      {| status_code := 200; json := Sample.five_commits |} = Some d
    ∧ recent_activity_trend_series Sample.stamp d = OK (weeks, recent_commits)
    ∧ length weeks = 12%nat ∧ length recent_commits = 2%nat.
Proof.
  eexists.
  destruct (recent_trend_series_lengths Sample.stamp Sample.strptime
              {| status_code := 200;
                 json := [Sample.raw_week 0 3; Sample.raw_week 604800 5] |}
              {| status_code := 200; json := Sample.five_commits |} _ eq_refl)
    as (weeks & ys & Hs & -> & Hlen & _).
  exists [1; 2; 3; 4; 5; 6; 7; 8; 9; 10; 11; 12]%nat, ys.
  split; [reflexivity|]. split; [exact Hs|]. split; [reflexivity | exact Hlen].
Defined.

Lemma export_after_analysis_witness :
  ∃ a log' cs rows,
    analyze_repository Sample.stamp Sample.strptime
      (SampleRepo.server SampleRepo.contributors SampleRepo.weeks)
      SampleRepo.url None [] = ((OK true, Some a), log')
    ∧ res_contributors a = PList cs
    ∧ prepare_dataframe_for_export Sample.stamp Sample.str Sample.strftime Sample.ticking
        (res_metadata a) cs (res_commit_activity a) = OK rows
    ∧ (14 ≤ length rows ≤ 43)%nat.
Proof.
  destruct (analyze_repository Sample.stamp Sample.strptime
              (SampleRepo.server SampleRepo.contributors SampleRepo.weeks)
              SampleRepo.url None []) as [[r st'] log'] eqn:H.
  assert (∃ a, r = OK true ∧ st' = Some a
               ∧ res_contributors a = PList (Sample.many_contributors 3))
    as (a & -> & -> & Hc).
  { vm_compute in H. injection H as <- <- _. eexists.
    split; [reflexivity|]. split; reflexivity. }
  destruct (prepare_dataframe_for_export Sample.stamp Sample.str Sample.strftime
              Sample.ticking (res_metadata a) (Sample.many_contributors 3)
              (res_commit_activity a)) as [rows|] eqn:Hrows.
  - destruct (export_after_analysis Sample.stamp Sample.strptime
                (SampleRepo.server SampleRepo.contributors SampleRepo.weeks)
                Sample.str Sample.strftime Sample.ticking
                SampleRepo.url None [] a log' _ rows H Hc Hrows) as [Hlen _].
    exists a, log', (Sample.many_contributors 3), rows.
    split; [reflexivity|]. split; [exact Hc|]. split; [exact Hrows | exact Hlen].
  - exfalso. vm_compute in H. injection H as <- _. vm_compute in Hrows. discriminate Hrows.
Defined.
